(** * Feedback-Analysis: the KoboToolbox -> PostgreSQL batch pipeline of main.py

    A shallow embedding of [src/main.py].  The script fetches a
    semicolon-separated export over HTTP, renames and selects the columns of
    the resulting data frame, converts the typed columns, recreates the table
    [feedback_ghana.customer_feedback], appends the rows and counts them.

    What belongs to the script is written out below, statement by statement.
    What belongs to the libraries it calls (the readers and converters of
    pandas, the HTTP client, the database server) is either a parameter of
    the development (section [Pipeline]) or a small model with the library
    behaviour it stands for named in its comment.  The module-level code of
    the script (reading the environment, the debug print of the settings) is
    outside the model. *)

From Stdlib Require Import List String Ascii ZArith QArith Bool Lia.
Import ListNotations.
Local Open Scope string_scope.
Local Open Scope list_scope.
Local Open Scope Z_scope.

Set Implicit Arguments.

(* ------------------------------------------------------------------ *)
(** ** Values held by a data frame *)

(** A calendar date, as [datetime.date]. *)
Record date := { year : Z; month : Z; day : Z }.

(** A [pandas.Timestamp]: a date, a time of day and, when the value is zoned,
    the offset from UTC in minutes. *)
Record timestamp := {
  on_date : date;
  hour : Z;
  minute : Z;
  second : Z;
  utc_offset : option Z
}.

(** A number as [pd.to_numeric] returns it, by its value.  [Int] is an
    integral value, [Frac] a value with a fractional part.  The storage type
    pandas chooses for the column as a whole (int64, or float64 as soon as one
    value of the column is missing or fractional, so that 34 is held as 34.0
    beside a missing value) and the rounding of float64 are not modelled. *)
Inductive number :=
| Int (z : Z)
| Frac (q : Q).

(** One cell of a data frame.  [Null] stands for NaN, NaT, <NA> and None. *)
Inductive cell :=
| Null
| Str (s : string)
| Num (n : number)
| Stamp (t : timestamp)
| Day (d : date).

Definition Series := list cell.

(** A data frame, column by column: the labels in order, each with its
    values; [nrows] is the length of the index. *)
Record DataFrame := {
  nrows : nat;
  cols : list (string * Series)
}.

Definition labels (df : DataFrame) : list string := map fst (cols df).

(** [df.empty]: true when either axis has length zero. *)
Definition empty (df : DataFrame) : bool :=
  match nrows df, cols df with
  | O, _ => true
  | _, [] => true
  | _, _ => false
  end.

(** The rows of a frame, as [to_sql] sends them. *)
Definition rows_of (df : DataFrame) : list (list cell) :=
  map (fun i => map (fun c => nth i (snd c) Null) (cols df)) (seq 0 (nrows df)).

(* ------------------------------------------------------------------ *)
(** ** Exceptions and results *)

Inductive exn :=
| ConnectionError
| HTTPError (status : Z)
| ParserError
| KeyError (missing : list string)
| ValueError
| TypeError
| AttributeError
| OperationalError
| ProgrammingError
| DuplicateColumnError.

Inductive result (A : Type) :=
| Ok (a : A)
| Raise (e : exn).
Arguments Ok {A} a.
Arguments Raise {A} e.

Definition rbind {A B} (r : result A) (k : A -> result B) : result B :=
  match r with
  | Ok a => k a
  | Raise e => Raise e
  end.

Fixpoint rmap {A B} (f : A -> result B) (l : list A) : result (list B) :=
  match l with
  | [] => Ok []
  | a :: l' => rbind (f a) (fun b => rbind (rmap f l') (fun bs => Ok (b :: bs)))
  end.

(* ------------------------------------------------------------------ *)
(** ** The pandas operations the script uses *)

(** The columns of [df] labelled [k], in frame order. *)
Definition lookup_all (k : string) (df : DataFrame) : list (string * Series) :=
  filter (fun c => String.eqb (fst c) k) (cols df).

(** [df.rename(columns=m)]: a label that is a key of [m] is replaced, any
    other label is kept. *)
Fixpoint assoc (k : string) (m : list (string * string)) : option string :=
  match m with
  | [] => None
  | (a, b) :: m' => if String.eqb a k then Some b else assoc k m'
  end.

Definition rename_label (m : list (string * string)) (k : string) : string :=
  match assoc k m with
  | Some d => d
  | None => k
  end.

Definition rename (m : list (string * string)) (df : DataFrame) : DataFrame :=
  {| nrows := nrows df;
     cols := map (fun c => (rename_label m (fst c), snd c)) (cols df) |}.

(** [df[keys]] with a list of labels: every column carrying each label, in the
    order of [keys]; [KeyError] naming the labels that no column carries. *)
Definition getitem_list (keys : list string) (df : DataFrame) : result DataFrame :=
  match filter (fun k => match lookup_all k df with [] => true | _ => false end) keys with
  | [] => Ok {| nrows := nrows df;
                cols := flat_map (fun k => lookup_all k df) keys |}
  | missing => Raise (KeyError missing)
  end.

(** [df[k]] with one label: a Series when one column carries the label, a
    frame of the columns that carry it when several do. *)
Inductive item :=
| ItemSeries (s : Series)
| ItemFrame (f : DataFrame).

Definition getitem (k : string) (df : DataFrame) : result item :=
  match lookup_all k df with
  | [] => Raise (KeyError [k])
  | [c] => Ok (ItemSeries (snd c))
  | cs => Ok (ItemFrame {| nrows := nrows df; cols := cs |})
  end.

(** [df[k] = s]: the values of every column labelled [k] are replaced; a new
    column is appended when there is none. *)
Definition setitem (k : string) (s : Series) (df : DataFrame) : DataFrame :=
  {| nrows := nrows df;
     cols := match lookup_all k df with
             | [] => cols df ++ [(k, s)]
             | _ => map (fun c => if String.eqb (fst c) k then (k, s) else c) (cols df)
             end |}.

(** [.dt.date] of a value: the calendar date of a timestamp; the missing
    value stays missing; the accessor exists on datetime values only. *)
Definition dt_date_cell (c : cell) : result cell :=
  match c with
  | Null => Ok Null
  | Stamp t => Ok (Day (on_date t))
  | _ => Raise AttributeError
  end.

Definition dt_date (s : Series) : result Series := rmap dt_date_cell s.

(** [.astype('Int64')] of a value: the nullable 64-bit integer type keeps the
    missing value and an integral number within range, and raises
    [TypeError] (cannot safely cast) on anything else. *)
Definition int64_min : Z := - 2 ^ 63.
Definition int64_max : Z := 2 ^ 63 - 1.

Definition astype_Int64_cell (c : cell) : result cell :=
  match c with
  | Null => Ok Null
  | Num (Int z) =>
      if (int64_min <=? z) && (z <=? int64_max) then Ok (Num (Int z)) else Raise TypeError
  | _ => Raise TypeError
  end.

Definition astype_Int64 (s : Series) : result Series := rmap astype_Int64_cell s.

(* ------------------------------------------------------------------ *)
(** ** Reference readers

    Concrete readers for plain inputs, used to run the pipeline on examples:
    decimal literals, ISO-8601 UTC instants and unquoted semicolon-separated
    text.  The pipeline itself is stated over arbitrary readers (section
    [Pipeline]). *)

Module Reference.

Definition digit (a : ascii) : option Z :=
  let n := Z.of_nat (nat_of_ascii a) in
  if (48 <=? n) && (n <=? 57) then Some (n - 48) else None.

Fixpoint digits_from (acc : Z) (l : list ascii) : option Z :=
  match l with
  | [] => Some acc
  | a :: l' =>
      match digit a with
      | Some d => digits_from (10 * acc + d) l'
      | None => None
      end
  end.

(** A non-empty run of decimal digits. *)
Definition natural (l : list ascii) : option Z :=
  match l with
  | [] => None
  | _ => digits_from 0 l
  end.

Fixpoint split_on (sep : ascii) (cur : list ascii) (l : list ascii) : list (list ascii) :=
  match l with
  | [] => [rev cur]
  | a :: l' =>
      if Ascii.eqb a sep then rev cur :: split_on sep [] l'
      else split_on sep (a :: cur) l'
  end.

(** An unsigned decimal literal: digits, optionally a point and digits. *)
Definition unsigned_number (l : list ascii) : option number :=
  match split_on "."%char [] l with
  | [ip] => option_map Int (natural ip)
  | [ip; fp] =>
      match natural ip, natural fp with
      | Some i, Some f =>
          if f =? 0 then Some (Int i)
          else
            let scale := 10 ^ Z.of_nat (List.length fp) in
            Some (Frac (Qred (Qmake (i * scale + f) (Z.to_pos scale))))
      | _, _ => None
      end
  | _ => None
  end.

Definition negate (n : number) : number :=
  match n with
  | Int z => Int (- z)
  | Frac q => Frac (Qopp q)
  end.

Definition parse_number (s : string) : option number :=
  match list_ascii_of_string s with
  | a :: l =>
      if Ascii.eqb a "-"%char then option_map negate (unsigned_number l)
      else unsigned_number (a :: l)
  | [] => None
  end.


(** [YYYY-MM-DDTHH:MM:SSZ]. *)
Definition parse_instant (s : string) : option timestamp :=
  match list_ascii_of_string s with
  | [y1; y2; y3; y4; p1; m1; m2; p2; d1; d2; t; h1; h2; q1; i1; i2; q2; s1; s2; z] =>
      if Ascii.eqb p1 "-"%char && Ascii.eqb p2 "-"%char && Ascii.eqb t "T"%char
         && Ascii.eqb q1 ":"%char && Ascii.eqb q2 ":"%char && Ascii.eqb z "Z"%char
      then
        match natural [y1; y2; y3; y4], natural [m1; m2], natural [d1; d2],
              natural [h1; h2], natural [i1; i2], natural [s1; s2] with
        | Some y, Some m, Some d, Some h, Some i, Some sec =>
            if (1 <=? m) && (m <=? 12) && (1 <=? d) && (d <=? 31)
               && (h <=? 23) && (i <=? 59) && (sec <=? 59)
            then Some {| on_date := {| year := y; month := m; day := d |};
                         hour := h; minute := i; second := sec;
                         utc_offset := Some 0 |}
            else None
        | _, _, _, _, _, _ => None
        end
      else None
  | _ => None
  end.

(** Text is parsed, a number is its own value, a timestamp is its own
    value; anything else is not convertible. *)
Definition to_numeric_scalar (c : cell) : option number :=
  match c with
  | Str s => parse_number s
  | Num n => Some n
  | _ => None
  end.

Definition to_datetime_scalar (c : cell) : option timestamp :=
  match c with
  | Str s => parse_instant s
  | Stamp t => Some t
  | _ => None
  end.

Definition field_cell (f : list ascii) : cell :=
  match f with
  | [] => Null
  | _ => Str (string_of_list_ascii f)
  end.

Definition blank (l : list ascii) : bool :=
  match l with
  | [] => true
  | _ => false
  end.

(** Semicolon-separated text with a header line.  Blank lines are skipped,
    a line with more fields than the header is skipped, a short line is
    padded with missing values; text with no line at all is an error.
    Every field is kept as text. *)
Definition read_csv (text : string) : option DataFrame :=
  let lines := filter (fun l => negb (blank l))
                 (split_on "010"%char [] (list_ascii_of_string text)) in
  match lines with
  | [] => None
  | h :: body =>
      let header := map string_of_list_ascii (split_on ";"%char [] h) in
      let width := List.length header in
      let good := filter (fun fs => Nat.leb (List.length fs) width)
                    (map (split_on ";"%char []) body) in
      Some {| nrows := List.length good;
              cols := map (fun j => (nth j header "",
                                     map (fun fs => field_cell (nth j fs [])) good))
                        (seq 0 width) |}
  end.

End Reference.

(* ------------------------------------------------------------------ *)
(** ** The fixed tables of clean_and_insert_data *)

(** The dictionary passed to [df.rename(columns=...)]. *)
Definition column_mapping : list (string * string) :=
  [ ("start", "start_time");
    ("end", "end_time");
    ("Date of reporting", "date_of_reporting");
    ("Store Location", "store_location");
    ("Gender", "gender");
    ("Age", "age");
    ("How satisfy are you with the product pricing", "product_pricing_satisfaction");
    ("How satified are you with the customers services", "customer_service_satisfaction");
    ("What is your overall satisfaction", "overall_satisfaction");
    ("What are your recommendations", "recommendations");
    ("_id", "submission_id");
    ("_uuid", "uuid");
    ("_submission_time", "submission_time");
    ("_validation_status", "validation_status");
    ("_notes", "notes");
    ("_status", "status");
    ("_submitted_by", "submitted_by");
    ("__version__", "version");
    ("_tags", "tags");
    ("_index", "index_value") ].

Definition columns_to_insert : list string :=
  [ "start_time"; "end_time"; "date_of_reporting"; "store_location";
    "gender"; "age"; "product_pricing_satisfaction";
    "customer_service_satisfaction"; "overall_satisfaction";
    "recommendations"; "submission_id"; "uuid"; "submission_time";
    "validation_status"; "notes"; "status"; "submitted_by";
    "version"; "tags"; "index_value" ].

Declare Scope result_scope.
Notation "'let!' x ':=' e 'in' k" := (rbind e (fun x => k))
  (at level 10, x name, e at level 100, k at level 200) : result_scope.
Local Open Scope result_scope.

Section Pipeline.

(** The converters of pandas on one non-missing value, read alone: [None]
    when the value cannot be converted. *)
Variable to_datetime_scalar : cell -> option timestamp.
Variable to_numeric_scalar : cell -> option number.
(** [pd.read_csv(text, sep=';', on_bad_lines='skip')]: [None] when the
    reader raises. *)
Variable read_csv : string -> option DataFrame.

(** [pd.to_datetime(x, errors='coerce')] on one value. *)
Definition to_datetime_cell (c : cell) : cell :=
  match c with
  | Null => Null
  | _ => match to_datetime_scalar c with
         | Some t => Stamp t
         | None => Null
         end
  end.

(** [pd.to_datetime(arg, errors='coerce')].  On a Series the model converts
    value by value, each value as pandas reads it alone.  pandas also looks
    at the column as a whole, which is not modelled: it reads every value
    against the format it infers from the first one, and it raises
    [ValueError] on a column whose values carry different UTC offsets.  So
    the model says nothing of whether the conversion of such a column
    returns, nor of which of its values are read: what is proved below of
    the converted columns of an arbitrary frame is stated of the frames the
    cleaning returns, and of the type of their values; a column of one value
    is out of reach of both effects.  On a frame the function assembles
    dates from columns named year, month and day, and raises [ValueError] on
    a frame that does not have them, as the frame of the columns sharing one
    label. *)
Definition to_datetime (arg : item) : result Series :=
  match arg with
  | ItemSeries s => Ok (map to_datetime_cell s)
  | ItemFrame _ => Raise ValueError
  end.

(** [pd.to_numeric(x, errors='coerce')] on one value. *)
Definition to_numeric_cell (c : cell) : cell :=
  match c with
  | Null => Null
  | _ => match to_numeric_scalar c with
         | Some n => Num n
         | None => Null
         end
  end.

(** [pd.to_numeric(arg, errors='coerce')]: on a Series, value by value, a
    value that cannot be read becoming missing; the storage type pandas
    chooses for the column as a whole is not modelled (see [number]).
    [TypeError] on a frame. *)
Definition to_numeric (arg : item) : result Series :=
  match arg with
  | ItemSeries s => Ok (map to_numeric_cell s)
  | ItemFrame _ => Raise TypeError
  end.

(** [df[k] = f(df[k])]. *)
Definition convert (k : string) (f : item -> result Series) (df : DataFrame)
  : result DataFrame :=
  let! x := getitem k df in
  let! s := f x in
  Ok (setitem k s df).

(** The data cleaning of [clean_and_insert_data], lines 151-200: rename,
    select, convert the date columns, convert the numeric columns. *)
Definition clean (df : DataFrame) : result DataFrame :=
  let df_clean := rename column_mapping df in
  let! df_clean := getitem_list columns_to_insert df_clean in
  let! df_clean := convert "start_time" to_datetime df_clean in
  let! df_clean := convert "end_time" to_datetime df_clean in
  let! df_clean := convert "date_of_reporting"
                     (fun x => let! s := to_datetime x in dt_date s) df_clean in
  let! df_clean := convert "submission_time" to_datetime df_clean in
  let! df_clean := convert "age" to_numeric df_clean in
  let! df_clean := convert "product_pricing_satisfaction" to_numeric df_clean in
  let! df_clean := convert "customer_service_satisfaction" to_numeric df_clean in
  let! df_clean := convert "overall_satisfaction" to_numeric df_clean in
  let! df_clean := convert "submission_id"
                     (fun x => let! s := to_numeric x in astype_Int64 s) df_clean in
  let! df_clean := convert "index_value" to_numeric df_clean in
  Ok df_clean.

(* ---------------------------------------------------------------- *)
(** *** The destination store *)

Inductive sqltype :=
| SERIAL
| TIMESTAMPTZ
| TIMESTAMP
| DATE
| VARCHAR (n : Z)
| TEXT
| INTEGER
| BIGINT.

Record coldef := {
  cname : string;
  ctype : sqltype;
  primary_key : bool;
  default_now : bool
}.

Definition plain (n : string) (t : sqltype) : coldef :=
  {| cname := n; ctype := t; primary_key := false; default_now := false |}.

(** The column list of the CREATE TABLE statement, lines 112-135. *)
Definition customer_feedback : list coldef :=
  [ {| cname := "id"; ctype := SERIAL; primary_key := true; default_now := false |};
    plain "start_time" TIMESTAMPTZ;
    plain "end_time" TIMESTAMPTZ;
    plain "date_of_reporting" DATE;
    plain "store_location" (VARCHAR 255);
    plain "gender" (VARCHAR 50);
    plain "age" INTEGER;
    plain "product_pricing_satisfaction" INTEGER;
    plain "customer_service_satisfaction" INTEGER;
    plain "overall_satisfaction" INTEGER;
    plain "recommendations" TEXT;
    plain "submission_id" BIGINT;
    plain "uuid" (VARCHAR 255);
    plain "submission_time" TIMESTAMP;
    plain "validation_status" (VARCHAR 100);
    plain "notes" TEXT;
    plain "status" (VARCHAR 100);
    plain "submitted_by" (VARCHAR 255);
    plain "version" (VARCHAR 100);
    plain "tags" TEXT;
    plain "index_value" INTEGER;
    {| cname := "created_at"; ctype := TIMESTAMP; primary_key := false; default_now := true |} ].

(** The statements the script itself asks for: the six it passes to
    [conn.execute] and the INSERT it asks [to_sql] for.  What SQLAlchemy and
    pandas send on their own behalf (transaction control, the catalog lookup
    by which [to_sql] finds out whether the table exists) is not recorded. *)
Inductive stmt :=
| SelectOne
| CreateSchemaIfNotExists
| DropTableIfExists
| CreateTable (layout : list coldef)
| InsertRows (names : list string) (rows : list (list cell))
| SelectCount
| SelectSample.

Inductive reply :=
| NoReply
| Scalar (n : Z)
| Rows (r : list (list cell)).

(** The part of the database the script touches: the schema
    [feedback_ghana] and the rows of [customer_feedback] ([None] when the
    table does not exist), in insertion order, which is the order of the
    serial [id].  A row is held as the values the script sent for the
    columns it inserts: the columns the server fills in ([id], [created_at])
    and the casts of the server to the column types are not modelled. *)
Record Db := {
  has_schema : bool;
  table : option (list (list cell))
}.

(** What a statement does when the server accepts it.  With
    [if_exists='append'], [to_sql] creates the table when it is missing.
    The sample query stands for its three rows only: the seven columns it
    selects, two of them filled in by the server, are not modelled, and no
    property below depends on what it returns. *)
Definition run_stmt (s : stmt) (d : Db) : result (reply * Db) :=
  match s with
  | SelectOne => Ok (Scalar 1, d)
  | CreateSchemaIfNotExists =>
      Ok (NoReply, {| has_schema := true; table := table d |})
  | DropTableIfExists =>
      Ok (NoReply, {| has_schema := has_schema d; table := None |})
  | CreateTable _ =>
      match has_schema d, table d with
      | true, None => Ok (NoReply, {| has_schema := true; table := Some [] |})
      | _, _ => Raise ProgrammingError
      end
  | InsertRows _ rows =>
      if has_schema d
      then Ok (NoReply,
               {| has_schema := true;
                  table := Some (match table d with
                                 | Some old => old ++ rows
                                 | None => rows
                                 end) |})
      else Raise ProgrammingError
  | SelectCount =>
      match table d with
      | Some rows => Ok (Scalar (Z.of_nat (List.length rows)), d)
      | None => Raise ProgrammingError
      end
  | SelectSample =>
      match table d with
      | Some rows => Ok (Rows (firstn 3 rows), d)
      | None => Raise ProgrammingError
      end
  end.

Definition scalar (r : reply) : Z :=
  match r with
  | Scalar n => n
  | _ => 0
  end.

Definition fetchall (r : reply) : list (list cell) :=
  match r with
  | Rows l => l
  | _ => []
  end.

(* ---------------------------------------------------------------- *)
(** *** The world of one run *)

Inductive http_outcome :=
| Unreachable
| Response (status : Z) (text : string).

Inductive stage :=
| Connecting
| Provisioning
| Loading
| Verifying.

(** What the outside does during one run: the answer of the remote
    service, whether the database can be reached at each stage, and the
    statements the server refuses. *)
Record Env := {
  remote : http_outcome;
  reachable : stage -> bool;
  rejects : stmt -> bool
}.

(** The lines the script prints, without the separators and the listing
    of the column types (lines 204-205). *)
Inductive line :=
| StartingPipeline
| DataFetched (shape : nat * nat)
| ColumnNames (names : list string)
| FirstRows (rows : list (list cell))
| ErrorFetching (e : exn)
| Traceback (e : exn)
| NoDataFetched
| AttemptingConnection
| ConnectionEstablished
| ErrorConnecting (e : exn)
| TroubleshootingTips
| SchemaVerified
| TableCreated
| ErrorCreating (e : exn)
| StartingCleaning
| ColumnsAfterRenaming (names : list string)
| Preview (rows : list (list cell))
| Inserted (n : nat)
| ErrorInserting (e : exn)
| TotalRecords (n : Z)
| SampleData (rows : list (list cell))
| Completed.

Record World := {
  db : Db;
  issued : list stmt;
  stdout : list line
}.

(** Computations that read and change the world and may raise. *)
Definition M (A : Type) : Type := World -> result A * World.

Definition ret {A} (a : A) : M A := fun w => (Ok a, w).

Definition raise {A} (e : exn) : M A := fun w => (Raise e, w).

Definition bind {A B} (m : M A) (k : A -> M B) : M B :=
  fun w =>
    match m w with
    | (Ok a, w') => k a w'
    | (Raise e, w') => (Raise e, w')
    end.

(** [try: m  except Exception as e: h e]. *)
Definition try_except {A} (m : M A) (h : exn -> M A) : M A :=
  fun w =>
    match m w with
    | (Ok a, w') => (Ok a, w')
    | (Raise e, w') => h e w'
    end.

Definition lift {A} (r : result A) : M A := fun w => (r, w).

Definition print (l : line) : M unit :=
  fun w => (Ok tt, {| db := db w; issued := issued w; stdout := stdout w ++ [l] |}).

(** [with engine.connect() as conn] at a stage. *)
Definition connect (env : Env) (st : stage) : M unit :=
  if reachable env st then ret tt else raise OperationalError.

(** [conn.execute(...)] followed by its commit: the statement is sent; when
    the server accepts it, its effect is applied. *)
Definition execute (env : Env) (s : stmt) : M reply :=
  fun w =>
    let sent := issued w ++ [s] in
    if rejects env s
    then (Raise OperationalError, {| db := db w; issued := sent; stdout := stdout w |})
    else
      match run_stmt s (db w) with
      | Ok (r, d) => (Ok r, {| db := d; issued := sent; stdout := stdout w |})
      | Raise e => (Raise e, {| db := db w; issued := sent; stdout := stdout w |})
      end.

Notation "x <- c1 ;; c2" := (bind c1 (fun x => c2))
  (at level 61, c1 at next level, right associativity).
Notation "c1 ;; c2" := (bind c1 (fun _ => c2))
  (at level 61, right associativity).

(* ---------------------------------------------------------------- *)
(** *** fetch_kobo_data *)

(** [requests.get(KOBO_URL, auth=..., timeout=30)]. *)
Definition requests_get (env : Env) : M (Z * string) :=
  match remote env with
  | Unreachable => raise ConnectionError
  | Response st body => ret (st, body)
  end.

(** [response.raise_for_status()]: [HTTPError] for a 4xx or 5xx status. *)
Definition raise_for_status (st : Z) : M unit :=
  if (400 <=? st) && (st <? 600) then raise (HTTPError st) else ret tt.

Definition pd_read_csv (text : string) : M DataFrame :=
  match read_csv text with
  | Some df => ret df
  | None => raise ParserError
  end.

(** [df.head(n)]. *)
Definition head (n : nat) (df : DataFrame) : list (list cell) :=
  firstn n (rows_of df).

Definition fetch_kobo_data (env : Env) : M (option DataFrame) :=
  try_except
    (response <- requests_get env ;;
     raise_for_status (fst response) ;;
     df <- pd_read_csv (snd response) ;;
     print (DataFetched (nrows df, List.length (cols df))) ;;
     print (ColumnNames (labels df)) ;;
     print (FirstRows (head 3 df)) ;;
     ret (Some df))
    (fun e =>
       print (ErrorFetching e) ;;
       print (Traceback e) ;;
       ret None).

(* ---------------------------------------------------------------- *)
(** *** create_database_connection *)

Inductive engine := Engine.

Definition create_database_connection (env : Env) : M (option engine) :=
  try_except
    (print AttemptingConnection ;;
     connect env Connecting ;;
     execute env SelectOne ;;
     print ConnectionEstablished ;;
     ret (Some Engine))
    (fun e =>
       print (ErrorConnecting e) ;;
       print TroubleshootingTips ;;
       ret None).

(* ---------------------------------------------------------------- *)
(** *** create_schema_and_table *)

Definition create_schema_and_table (env : Env) : M unit :=
  try_except
    (connect env Provisioning ;;
     execute env CreateSchemaIfNotExists ;;
     print SchemaVerified ;;
     execute env DropTableIfExists ;;
     execute env (CreateTable customer_feedback) ;;
     print TableCreated)
    (fun e =>
       print (ErrorCreating e) ;;
       raise e).

(* ---------------------------------------------------------------- *)
(** *** clean_and_insert_data *)

(** Some label occurs twice. *)
Fixpoint repeats (l : list string) : bool :=
  match l with
  | [] => false
  | a :: l' => existsb (String.eqb a) l' || repeats l'
  end.

(** Two columns of the frame carry the same label. *)
Definition repeated_label (df : DataFrame) : bool := repeats (labels df).

(** [df.to_sql(...)] with if_exists=append, index=False, method=multi.  A
    connection is taken from the engine; the description of the table is
    built from the columns of the frame, which SQLAlchemy refuses with
    [DuplicateColumnError] when two columns carry the same label, before
    anything is sent; otherwise every row of the frame goes into one
    multi-row INSERT.  [reachable env Loading] stands for the connection
    and for the catalog lookup that precedes the INSERT. *)
Definition to_sql (env : Env) (df : DataFrame) : M unit :=
  connect env Loading ;;
  (if repeated_label df then raise DuplicateColumnError else ret tt) ;;
  execute env (InsertRows (labels df) (rows_of df)) ;;
  ret tt.

Definition clean_and_insert_data (env : Env) (df : DataFrame) : M unit :=
  try_except
    (print StartingCleaning ;;
     print (ColumnsAfterRenaming (firstn 5 (labels (rename column_mapping df)))) ;;
     df_clean <- lift (clean df) ;;
     print (Preview (head 5 df_clean)) ;;
     to_sql env df_clean ;;
     print (Inserted (nrows df_clean)))
    (fun e =>
       print (ErrorInserting e) ;;
       print (Traceback e) ;;
       raise e).

(* ---------------------------------------------------------------- *)
(** *** main *)

Definition main (env : Env) : M unit :=
  print StartingPipeline ;;
  df <- fetch_kobo_data env ;;
  match df with
  | None => print NoDataFetched
  | Some df =>
      if empty df then print NoDataFetched
      else
        engine <- create_database_connection env ;;
        match engine with
        | None => ret tt
        | Some _ =>
            create_schema_and_table env ;;
            clean_and_insert_data env df ;;
            connect env Verifying ;;
            result <- execute env SelectCount ;;
            let count := scalar result in
            print (TotalRecords count) ;;
            (if 0 <? count
             then sample <- execute env SelectSample ;;
                  print (SampleData (fetchall sample))
             else ret tt) ;;
            print Completed
        end
  end.

(* ---------------------------------------------------------------- *)
(** *** Notions used to state the properties *)

(** The values of the first column labelled [k]. *)
Definition column (k : string) (df : DataFrame) : Series :=
  match lookup_all k df with
  | c :: _ => snd c
  | [] => []
  end.

(** Every destination label is carried by exactly one column of the
    renamed frame. *)
Definition exactly_once (df : DataFrame) : bool :=
  forallb (fun k => Nat.eqb (List.length (lookup_all k (rename column_mapping df))) 1)
          columns_to_insert.

(** The destination labels that no column of the renamed frame carries. *)
Definition missing_columns (df : DataFrame) : list string :=
  filter (fun k => match lookup_all k (rename column_mapping df) with
                   | [] => true
                   | _ => false
                   end) columns_to_insert.

(** The conversion lines 189-200 apply to each destination column. *)
Inductive kind :=
| KTimestamp
| KDate
| KNumeric
| KInt64
| KText.

Definition mem (k : string) (l : list string) : bool := existsb (String.eqb k) l.

Definition kind_of (k : string) : kind :=
  if mem k ["start_time"; "end_time"; "submission_time"] then KTimestamp
  else if mem k ["date_of_reporting"] then KDate
  else if mem k ["age"; "product_pricing_satisfaction";
                 "customer_service_satisfaction"; "overall_satisfaction";
                 "index_value"] then KNumeric
  else if mem k ["submission_id"] then KInt64
  else KText.

Definition coerce_cell (kd : kind) (c : cell) : result cell :=
  match kd with
  | KTimestamp => Ok (to_datetime_cell c)
  | KDate => dt_date_cell (to_datetime_cell c)
  | KNumeric => Ok (to_numeric_cell c)
  | KInt64 => astype_Int64_cell (to_numeric_cell c)
  | KText => Ok c
  end.

(** A converted value that [.astype('Int64')] accepts. *)
Definition int64_safe (c : cell) : bool :=
  match c with
  | Null => true
  | Num (Int z) => (int64_min <=? z) && (z <=? int64_max)
  | _ => false
  end.

(** What a value of a destination column looks like once converted. *)
Definition coerced (kd : kind) (u u' : cell) : Prop :=
  match kd with
  | KTimestamp => u' = Null \/ exists t, u' = Stamp t
  | KDate => u' = Null \/ exists d, u' = Day d
  | KNumeric => u' = Null \/ exists n, u' = Num n
  | KInt64 => u' = Null \/ exists z, u' = Num (Int z) /\ int64_min <= z <= int64_max
  | KText => u' = u
  end.

(** [pd.to_datetime(x, errors='coerce').dt.date] on one value. *)
Definition to_date_cell (c : cell) : cell :=
  match to_datetime_cell c with
  | Stamp t => Day (on_date t)
  | _ => Null
  end.

(** The values of a destination column after cleaning, given the cast
    identifiers. *)
Definition cleaned_column (src : DataFrame) (ids : Series) (k : string) : Series :=
  match kind_of k with
  | KTimestamp => map to_datetime_cell (column k src)
  | KDate => map to_date_cell (column k src)
  | KNumeric => map to_numeric_cell (column k src)
  | KInt64 => ids
  | KText => column k src
  end.

(* ---------------------------------------------------------------- *)
(** *** Notions used to state the properties of a run *)

(** What [fetch_kobo_data] hands to [main]: the parsed frame when the
    request is answered with a status that [raise_for_status] lets through
    and the reader accepts the text. *)
Definition fetched (env : Env) : option DataFrame :=
  match remote env with
  | Unreachable => None
  | Response st body =>
      if (400 <=? st) && (st <? 600) then None else read_csv body
  end.

(** The outside causes no failure: the database is reachable at every
    stage and refuses no statement. *)
Definition calm (env : Env) : Prop :=
  (forall st, reachable env st = true) /\ (forall s, rejects env s = false).

(** The connection test of [create_database_connection] fails. *)
Definition connection_fails (env : Env) : bool :=
  negb (reachable env Connecting) || rejects env SelectOne.

(** Something fails inside [create_schema_and_table]. *)
Definition provisioning_fails (env : Env) : bool :=
  negb (reachable env Provisioning)
  || rejects env CreateSchemaIfNotExists
  || rejects env DropTableIfExists
  || rejects env (CreateTable customer_feedback).

(** Something fails inside [clean_and_insert_data]. *)
Definition loading_fails (env : Env) (df : DataFrame) : bool :=
  match clean df with
  | Raise _ => true
  | Ok out => negb (reachable env Loading)
              || repeated_label out
              || rejects env (InsertRows (labels out) (rows_of out))
  end.

Definition verification (s : stmt) : bool :=
  match s with
  | SelectCount | SelectSample => true
  | _ => false
  end.

(** A statement that changes the destination store. *)
Definition mutation (s : stmt) : bool :=
  match s with
  | CreateSchemaIfNotExists | DropTableIfExists | CreateTable _ | InsertRows _ _ => true
  | _ => false
  end.

(** The world after printing the lines [L]. *)
Definition say (w : World) (L : list line) : World :=
  {| db := db w; issued := issued w; stdout := stdout w ++ L |}.

(** A statement that neither changes the store nor belongs to the
    verification. *)
Definition harmless (s : stmt) : bool := negb (mutation s) && negb (verification s).

Definition row_count (w : World) : option nat :=
  option_map (@List.length (list cell)) (table (db w)).

(** Counting the columns of the table by type. *)
Definition count_columns (p : coldef -> bool) : nat :=
  List.length (filter p customer_feedback).

Definition has_type (t : sqltype) (c : coldef) : bool :=
  match ctype c, t with
  | SERIAL, SERIAL | TIMESTAMPTZ, TIMESTAMPTZ | TIMESTAMP, TIMESTAMP
  | DATE, DATE | TEXT, TEXT | INTEGER, INTEGER | BIGINT, BIGINT => true
  | _, _ => false
  end.

Definition column_named (n : string) : option coldef :=
  find (fun c => String.eqb (cname c) n) customer_feedback.

Definition is_text (c : coldef) : bool :=
  match ctype c with
  | VARCHAR _ | TEXT => true
  | _ => false
  end.

(* ---------------------------------------------------------------- *)
(** *** Example data *)

Definition source_columns : list string := map fst column_mapping.

Fixpoint value_of (k : string) (vals : list (string * cell)) : cell :=
  match vals with
  | [] => Null
  | (a, v) :: vals' => if String.eqb a k then v else value_of k vals'
  end.

(** A one-row export with every source column; the cells not listed are
    missing. *)
Definition one_row (vals : list (string * cell)) : DataFrame :=
  {| nrows := 1; cols := map (fun k => (k, [value_of k vals])) source_columns |}.

Definition example_values : list (string * cell) :=
  [ ("Age", Str "34"); ("Gender", Str "Female"); ("_id", Str "991");
    ("start", Str "2024-01-03T10:00:00Z") ].

(** The example row, in a complete export. *)
Definition example_row : DataFrame := one_row example_values.

(** The example row with the four columns it names and no other. *)
Definition sparse_row : DataFrame :=
  {| nrows := 1; cols := map (fun kv => (fst kv, [snd kv])) example_values |}.

Definition instant_2024_01_03 : timestamp :=
  {| on_date := {| year := 2024; month := 1; day := 3 |};
     hour := 10; minute := 0; second := 0; utc_offset := Some 0 |}.

Definition example_cleaned : DataFrame :=
  {| nrows := 1;
     cols := map (fun k => (k, [value_of k
                                  [ ("age", Num (Int 34)); ("gender", Str "Female");
                                    ("submission_id", Num (Int 991));
                                    ("start_time", Stamp instant_2024_01_03) ]]))
               columns_to_insert |}.

Definition fractional_age_row : DataFrame :=
  one_row [ ("Age", Str "3.5"); ("Gender", Str "Female"); ("_id", Str "991") ].

Definition fractional_id_row : DataFrame :=
  one_row [ ("Age", Str "34"); ("Gender", Str "Female"); ("_id", Str "3.5") ].

Definition malformed_age_row : DataFrame :=
  one_row [ ("Age", Str "thirty"); ("Gender", Str "Male"); ("_id", Str "992");
            ("Store Location", Str "Accra"); ("_index", Str "2") ].

(** The example row in an export that also has a column the mapping does
    not know. *)
Definition extra_column_row : DataFrame :=
  {| nrows := 1; cols := ("deviceid", [Str "ab12"]) :: cols example_row |}.

(** A complete export but for the column _tags. *)
Definition without_tags : DataFrame :=
  {| nrows := 1;
     cols := filter (fun c => negb (String.eqb (fst c) "_tags")) (cols example_row) |}.


Definition quiet (r : http_outcome) : Env :=
  {| remote := r; reachable := fun _ => true; rejects := fun _ => false |}.

Definition offline (r : http_outcome) : Env :=
  {| remote := r; reachable := fun _ => false; rejects := fun _ => false |}.

(** A database server that refuses the multi-row INSERT. *)
Definition refusing_insert (r : http_outcome) : Env :=
  {| remote := r;
     reachable := fun _ => true;
     rejects := fun s => match s with InsertRows _ _ => true | _ => false end |}.

Definition header_line : string :=
  "start;end;Date of reporting;Store Location;Gender;Age;How satisfy are you with the product pricing;How satified are you with the customers services;What is your overall satisfaction;What are your recommendations;_id;_uuid;_submission_time;_validation_status;_notes;_status;_submitted_by;__version__;_tags;_index".

Definition newline : string := String "010"%char EmptyString.

(** An export with the header line and no row. *)
Definition header_only : string := header_line.

(** An export with two rows. *)
Definition two_rows : string :=
  header_line ++ newline
  ++ "2024-01-03T10:00:00Z;;;;Female;34;;;;;991" ++ newline
  ++ ";;2024-01-04;Accra;Male;thirty;4;;;;992;;;;;;;;;2".

(** An answer with status 300 that carries one row. *)
Definition multiple_choices : http_outcome :=
  Response 300 ("Age;Gender" ++ newline ++ "34;Female").

Definition no_store : Db := {| has_schema := false; table := None |}.

Definition old_store : Db :=
  {| has_schema := true; table := Some [[Str "kept"]] |}.

Definition world_of (d : Db) : World := {| db := d; issued := []; stdout := [] |}.

(* ---------------------------------------------------------------- *)
(** *** Notions used to state further properties of the cleaning *)

(** How many columns of the renamed frame carry the label [k]. *)
Definition carried (k : string) (df : DataFrame) : nat :=
  List.length (lookup_all k (rename column_mapping df)).

(** The exceptions the conversions raise on a frame or on a value they
    cannot cast. *)
Definition conversion_error (e : exn) : Prop := e = ValueError \/ e = TypeError.

(** The conversions of lines 189-200, in the order the script applies
    them. *)
Definition conversions : list (string * (item -> result Series)) :=
  [ ("start_time", to_datetime);
    ("end_time", to_datetime);
    ("date_of_reporting", fun x => let! s := to_datetime x in dt_date s);
    ("submission_time", to_datetime);
    ("age", to_numeric);
    ("product_pricing_satisfaction", to_numeric);
    ("customer_service_satisfaction", to_numeric);
    ("overall_satisfaction", to_numeric);
    ("submission_id", fun x => let! s := to_numeric x in astype_Int64 s);
    ("index_value", to_numeric) ].

Fixpoint convert_all (l : list (string * (item -> result Series))) (df : DataFrame)
  : result DataFrame :=
  match l with
  | [] => Ok df
  | (k, f) :: l' => let! df' := convert k f df in convert_all l' df'
  end.

(* ---------------------------------------------------------------- *)
(** *** Notions used to state further properties of a run *)

(** Something fails inside the verification of [main]. *)
Definition verification_fails (env : Env) : bool :=
  negb (reachable env Verifying) || rejects env SelectCount || rejects env SelectSample.

(** The place of a statement in the order of the script. *)
Definition position (s : stmt) : nat :=
  match s with
  | SelectOne => 0
  | CreateSchemaIfNotExists => 1
  | DropTableIfExists => 2
  | CreateTable _ => 3
  | InsertRows _ _ => 4
  | SelectCount => 5
  | SelectSample => 6
  end.

(* ---------------------------------------------------------------- *)
(** *** The connection string of create_database_connection, lines 66-79

    A Python string is modelled by a [string] whose characters are the code
    points below 256. *)

(** [str.isspace] on one character: the whitespace of Unicode below 256. *)
Definition isspace (a : ascii) : bool :=
  let n := nat_of_ascii a in
  (Nat.leb 9 n && Nat.leb n 13) || (Nat.leb 28 n && Nat.leb n 32)
  || Nat.eqb n 133 || Nat.eqb n 160.

Definition double_quote : ascii := "034"%char.
Definition single_quote : ascii := "'"%char.

Fixpoint lstrip (p : ascii -> bool) (s : string) : string :=
  match s with
  | EmptyString => EmptyString
  | String a s' => if p a then lstrip p s' else s
  end.

Fixpoint rstrip (p : ascii -> bool) (s : string) : string :=
  match s with
  | EmptyString => EmptyString
  | String a s' =>
      match rstrip p s' with
      | EmptyString => if p a then EmptyString else String a EmptyString
      | r => String a r
      end
  end.

(** [s.strip()] with [p] the whitespace, [s.strip(c)] with [p] the test of
    being the character [c]: the characters satisfying [p] are removed from
    both ends. *)
Definition strip (p : ascii -> bool) (s : string) : string := rstrip p (lstrip p s).

(** The cleaning of one setting: [X.strip()], then [.strip] of the double
    quote, then [.strip] of the single quote, [if X else default]: a setting
    that is unset or empty takes the default. *)
Definition setting (raw : option string) (default : string) : string :=
  match raw with
  | None => default
  | Some EmptyString => default
  | Some s => strip (Ascii.eqb single_quote) (strip (Ascii.eqb double_quote) (strip isspace s))
  end.

(** The characters [urllib.parse.quote] never escapes: letters, digits and
    [_.-~]. *)
Definition always_safe (a : ascii) : bool :=
  let n := nat_of_ascii a in
  (Nat.leb 48 n && Nat.leb n 57) || (Nat.leb 65 n && Nat.leb n 90)
  || (Nat.leb 97 n && Nat.leb n 122)
  || Nat.eqb n 95 || Nat.eqb n 46 || Nat.eqb n 45 || Nat.eqb n 126.

Definition hex_digit (n : nat) : ascii :=
  nth n (list_ascii_of_string "0123456789ABCDEF") "0"%char.

(** [%XX] for one byte. *)
Definition percent_encode (b : nat) : string :=
  String "%"%char
    (String (hex_digit (Nat.div b 16)) (String (hex_digit (Nat.modulo b 16)) EmptyString)).

(** The UTF-8 bytes of a code point below 256. *)
Definition utf8 (a : ascii) : list nat :=
  let n := nat_of_ascii a in
  if Nat.ltb n 128 then [n]
  else [(192 + Nat.div n 64)%nat; (128 + Nat.modulo n 64)%nat].

Definition quote_plus_char (a : ascii) : string :=
  if Ascii.eqb a " "%char then String "+"%char EmptyString
  else if always_safe a then String a EmptyString
  else String.concat EmptyString (map percent_encode (utf8 a)).

(** [urllib.parse.quote_plus(s)]: a space becomes [+], a safe character is
    kept, any other character becomes the [%XX] of its UTF-8 bytes. *)
Fixpoint quote_plus (s : string) : string :=
  match s with
  | EmptyString => EmptyString
  | String a s' => (quote_plus_char a ++ quote_plus s')%string
  end.

(** The five settings read from the environment; [None] when unset. *)
Record Settings := {
  SQL_HOST : option string;
  SQL_PORT : option string;
  SQL_USERNAME : option string;
  SQL_PASSWORD : option string;
  SQL_DATABASE : option string
}.

Definition host_of (cfg : Settings) : string := setting (SQL_HOST cfg) "localhost".
Definition port_of (cfg : Settings) : string := setting (SQL_PORT cfg) "5432".
Definition username_of (cfg : Settings) : string := setting (SQL_USERNAME cfg) "postgres".
Definition password_of (cfg : Settings) : string := setting (SQL_PASSWORD cfg) EmptyString.
Definition database_of (cfg : Settings) : string := setting (SQL_DATABASE cfg) EmptyString.

(** The string passed to [create_engine], line 79. *)
Definition connection_string (cfg : Settings) : string :=
  ("postgresql://" ++ quote_plus (username_of cfg) ++ ":" ++ quote_plus (password_of cfg)
   ++ "@" ++ host_of cfg ++ ":" ++ port_of cfg ++ "/" ++ database_of cfg)%string.

(** Every character of [s] satisfies [p]. *)
Fixpoint all (p : ascii -> bool) (s : string) : bool :=
  match s with
  | EmptyString => true
  | String a s' => p a && all p s'
  end.

Definition starts_with (p : ascii -> bool) (s : string) : bool :=
  match s with
  | EmptyString => false
  | String a _ => p a
  end.

Fixpoint ends_with (p : ascii -> bool) (s : string) : bool :=
  match s with
  | EmptyString => false
  | String a EmptyString => p a
  | String _ s' => ends_with p s'
  end.

(** Whitespace or a quote of either kind. *)
Definition blank_or_quote (a : ascii) : bool :=
  isspace a || Ascii.eqb double_quote a || Ascii.eqb single_quote a.

(** The part of [s] before the first [c] (all of [s] when there is none) and
    the part after it. *)
Fixpoint before (c : ascii) (s : string) : string :=
  match s with
  | EmptyString => EmptyString
  | String a s' => if Ascii.eqb a c then EmptyString else String a (before c s')
  end.

Fixpoint after (c : ascii) (s : string) : string :=
  match s with
  | EmptyString => EmptyString
  | String a s' => if Ascii.eqb a c then s' else after c s'
  end.

(** A setting whose value is a password with characters that are special in
    a URL, wrapped in quotes and blanks as a .env file may have it. *)
Definition example_settings : Settings :=
  {| SQL_HOST := None;
     SQL_PORT := Some " 5433 ";
     SQL_USERNAME := Some "'data team'";
     SQL_PASSWORD := Some (String double_quote ("p@ss:w/rd" ++ String double_quote EmptyString));
     SQL_DATABASE := Some "Chidinma" |}.

(** The characters [quote_plus] writes: the safe ones, [%] and [+]. *)
Definition written_by_quote_plus (a : ascii) : bool :=
  always_safe a || Ascii.eqb a "%"%char || Ascii.eqb a "+"%char.

(* ---------------------------------------------------------------- *)
(** *** More example data *)

(** The example row in an export that has both the source column Age and a
    column already named age. *)
Definition doubled_age_row : DataFrame :=
  {| nrows := 1; cols := cols example_row ++ [("age", [Str "35"])] |}.

(** The example row in an export that has both the source column Gender and
    a column already named gender. *)
Definition doubled_gender_row : DataFrame :=
  {| nrows := 1; cols := cols example_row ++ [("gender", [Str "F"])] |}.

(** A database server that refuses the CREATE TABLE. *)
Definition refusing_create (r : http_outcome) : Env :=
  {| remote := r;
     reachable := fun _ => true;
     rejects := fun s => match s with CreateTable _ => true | _ => false end |}.

(** A database server that refuses the count query. *)
Definition refusing_count (r : http_outcome) : Env :=
  {| remote := r;
     reachable := fun _ => true;
     rejects := fun s => match s with SelectCount => true | _ => false end |}.

(* ---------------------------------------------------------------- *)
(** *** Properties of the data cleaning *)

Lemma rmap_Ok {A B} (f : A -> B) (l : list A) :
  rmap (fun a => Ok (f a)) l = Ok (map f l).
Proof.
  induction l as [|a l IH]; simpl; [reflexivity|].
  rewrite IH. reflexivity.
Qed.

Lemma rmap_map {A B C} (g : A -> B) (f : B -> result C) (l : list A) :
  rmap f (map g l) = rmap (fun a => f (g a)) l.
Proof.
  induction l as [|a l IH]; simpl; [reflexivity|].
  rewrite IH. reflexivity.
Qed.

Lemma rmap_id {A} (l : list A) : rmap (fun a => Ok a) l = Ok l.
Proof.
  rewrite (rmap_Ok (fun a => a)). rewrite map_id. reflexivity.
Qed.



Lemma rmap_Forall2 {A B} (f : A -> result B) (P : A -> B -> Prop) (l : list A) (l' : list B) :
  (forall a b, f a = Ok b -> P a b) ->
  rmap f l = Ok l' -> Forall2 P l l'.
Proof.
  intros HP. revert l'. induction l as [|x l IH]; simpl; intros l' H.
  - inversion H. constructor.
  - destruct (f x) as [b|] eqn:Efx; [|discriminate]. simpl in H.
    destruct (rmap f l) as [bs|]; [|discriminate]. simpl in H.
    inversion H; subst l'. constructor; [apply HP; assumption | apply IH; reflexivity].
Qed.

Lemma lookup_all_label k df c : In c (lookup_all k df) -> fst c = k.
Proof.
  unfold lookup_all. intros H. apply filter_In in H. destruct H as [_ H].
  apply String.eqb_eq in H. exact H.
Qed.

Lemma lookup_all_single k df :
  List.length (lookup_all k df) = 1%nat -> lookup_all k df = [(k, column k df)].
Proof.
  unfold column. intros H.
  destruct (lookup_all k df) as [|c [|c' l]] eqn:E; try discriminate.
  assert (Hc : fst c = k) by (apply (lookup_all_label k df); rewrite E; left; reflexivity).
  destruct c as [a s]. simpl in *. subst a. reflexivity.
Qed.

(** Selecting labels that are each carried once keeps one column per
    label, in the order of the labels. *)
Lemma getitem_list_single keys df :
  (forall k, In k keys -> List.length (lookup_all k df) = 1%nat) ->
  getitem_list keys df =
  Ok {| nrows := nrows df; cols := map (fun k => (k, column k df)) keys |}.
Proof.
  intros H. unfold getitem_list.
  assert (Hm : filter (fun k => match lookup_all k df with [] => true | _ => false end) keys = []).
  { induction keys as [|k keys IH]; simpl; [reflexivity|].
    rewrite (lookup_all_single k df) by (apply H; left; reflexivity).
    apply IH. intros k' Hk'. apply H. right. assumption. }
  rewrite Hm. f_equal. f_equal.
  induction keys as [|k keys IH]; simpl; [reflexivity|].
  rewrite (lookup_all_single k df) by (apply H; left; reflexivity).
  simpl. f_equal. apply IH.
  - intros k' Hk'. apply H. right. assumption.
  - simpl in Hm. rewrite (lookup_all_single k df) in Hm by (apply H; left; reflexivity).
    exact Hm.
Qed.

Lemma exactly_once_spec df :
  exactly_once df = true ->
  forall k, In k columns_to_insert ->
  List.length (lookup_all k (rename column_mapping df)) = 1%nat.
Proof.
  unfold exactly_once. intros H k Hk.
  rewrite forallb_forall in H. apply Nat.eqb_eq. apply H. exact Hk.
Qed.

(** The date conversion never raises: the accessor is applied to the
    result of [to_datetime], which is a timestamp or missing. *)
Lemma coerce_date_cell (c : cell) : coerce_cell KDate c = Ok (to_date_cell c).
Proof.
  unfold coerce_cell, to_date_cell, to_datetime_cell.
  destruct c; simpl; try reflexivity; destruct (to_datetime_scalar _); reflexivity.
Qed.

Lemma dt_date_to_datetime (s : Series) :
  dt_date (map to_datetime_cell s) = Ok (map to_date_cell s).
Proof.
  unfold dt_date. rewrite rmap_map. rewrite <- rmap_Ok.
  induction s as [|c s IH]; simpl; [reflexivity|].
  rewrite IH. change (dt_date_cell (to_datetime_cell c)) with (coerce_cell KDate c).
  rewrite coerce_date_cell. reflexivity.
Qed.

Lemma astype_to_numeric (s : Series) :
  astype_Int64 (map to_numeric_cell s) = rmap (coerce_cell KInt64) s.
Proof. unfold astype_Int64. rewrite rmap_map. reflexivity. Qed.

(** The closed form of [clean] on a frame that carries each destination
    label once: each destination column is its source column converted
    value by value, the cast of [submission_id] being the conversion of the
    model that can raise. *)
Lemma clean_exactly_once df :
  exactly_once df = true ->
  let src := rename column_mapping df in
  clean df =
  (let! ids := rmap (coerce_cell KInt64) (column "submission_id" src) in
   Ok {| nrows := nrows df;
         cols := map (fun k => (k, cleaned_column src ids k)) columns_to_insert |}).
Proof.
  intros H src. unfold clean. fold src.
  rewrite (getitem_list_single columns_to_insert src) by (apply exactly_once_spec; exact H).
  change (nrows src) with (nrows df).
  unfold columns_to_insert, cleaned_column. cbn [map rbind].
  repeat match goal with
         | |- context [column ?k src] => generalize (column k src); intro
         end.
  cbn. fold (dt_date (map to_datetime_cell s1)). rewrite dt_date_to_datetime.
  cbn. fold (astype_Int64 (map to_numeric_cell s9)). rewrite astype_to_numeric.
  destruct (rmap (coerce_cell KInt64) s9); reflexivity.
Qed.

Ltac each_destination_column H :=
  unfold columns_to_insert in H; simpl in H;
  repeat (destruct H as [H|H]; [subst|]); try contradiction.

Lemma column_of_map n (g : string -> Series) k :
  In k columns_to_insert ->
  column k {| nrows := n; cols := map (fun k => (k, g k)) columns_to_insert |} = g k.
Proof. intros Hk. each_destination_column Hk; reflexivity. Qed.

Lemma cleaned_column_spec src ids :
  rmap (coerce_cell KInt64) (column "submission_id" src) = Ok ids ->
  forall k, In k columns_to_insert ->
  rmap (coerce_cell (kind_of k)) (column k src) = Ok (cleaned_column src ids k).
Proof.
  intros Hids k Hk. unfold cleaned_column.
  each_destination_column Hk; cbn [kind_of mem existsb String.eqb Ascii.eqb Bool.eqb orb];
    cbv iota; unfold coerce_cell;
    first [ apply rmap_Ok | apply rmap_id | exact Hids
          | rewrite <- dt_date_to_datetime; unfold dt_date; rewrite rmap_map; reflexivity ].
Qed.

(** On a frame that carries each destination label once, every output of
    [clean] has the destination labels, the rows of the input, and in each
    column the source values converted one by one. *)
Lemma clean_columns df out :
  exactly_once df = true ->
  clean df = Ok out ->
  labels out = columns_to_insert /\
  nrows out = nrows df /\
  forall k, In k columns_to_insert ->
    rmap (coerce_cell (kind_of k)) (column k (rename column_mapping df)) = Ok (column k out).
Proof.
  intros H Hc. rewrite (clean_exactly_once df H) in Hc.
  destruct (rmap (coerce_cell KInt64) _) as [ids|] eqn:Hids; [|discriminate].
  assert (Hout : out = {| nrows := nrows df;
                          cols := map (fun k => (k, cleaned_column (rename column_mapping df) ids k))
                                      columns_to_insert |})
    by (cbn [rbind] in Hc; congruence).
  clear Hc. subst out.
  split; [reflexivity|]. split; [reflexivity|].
  intros k Hk. rewrite (column_of_map (nrows df) (cleaned_column (rename column_mapping df) ids) Hk).
  apply cleaned_column_spec; assumption.
Qed.

Lemma coerce_cell_coerced kd (u u' : cell) :
  coerce_cell kd u = Ok u' -> coerced kd u u'.
Proof.
  destruct kd; simpl.
  - intros E; inversion E. unfold to_datetime_cell.
    destruct u; try (left; reflexivity);
      destruct (to_datetime_scalar _); eauto.
  - change (dt_date_cell (to_datetime_cell u)) with (coerce_cell KDate u).
    rewrite coerce_date_cell.
    intros E; inversion E. unfold to_date_cell.
    destruct (to_datetime_cell u); eauto.
  - intros E; inversion E. unfold to_numeric_cell.
    destruct u; try (left; reflexivity);
      destruct (to_numeric_scalar _); eauto.
  - unfold astype_Int64_cell.
    destruct (to_numeric_cell u) as [| |[z|q]| |]; intros E; try discriminate.
    + inversion E. left; reflexivity.
    + destruct ((int64_min <=? z) && (z <=? int64_max)) eqn:R; [|discriminate].
      inversion E. right. exists z. split; [reflexivity|].
      apply andb_true_iff in R. destruct R as [R1 R2].
      apply Z.leb_le in R1. apply Z.leb_le in R2. lia.
  - intros E; inversion E. reflexivity.
Qed.

Lemma getitem_list_nrows keys df out :
  getitem_list keys df = Ok out -> nrows out = nrows df.
Proof.
  unfold getitem_list. destruct (filter _ keys); [|discriminate].
  intros E; inversion E. reflexivity.
Qed.

Lemma convert_nrows k f df out :
  convert k f df = Ok out -> nrows out = nrows df.
Proof.
  unfold convert. destruct (getitem k df); [|discriminate]. simpl.
  destruct (f a); [|discriminate]. simpl.
  intros E; inversion E. reflexivity.
Qed.

(** Cleaning never adds or removes a row. *)
Lemma clean_nrows df out : clean df = Ok out -> nrows out = nrows df.
Proof.
  unfold clean. intros H.
  destruct (getitem_list _ _) as [d0|] eqn:E0; [|discriminate]. cbn [rbind] in H.
  apply getitem_list_nrows in E0.
  change (nrows (rename column_mapping df)) with (nrows df) in E0.
  repeat match type of H with
         | rbind (convert ?k ?f ?d) _ = _ =>
             let E := fresh "E" in
             destruct (convert k f d) eqn:E; [|discriminate];
             cbn [rbind] in H; apply convert_nrows in E
         end.
  inversion H; subst. congruence.
Qed.

Lemma clean_missing df :
  missing_columns df <> [] -> clean df = Raise (KeyError (missing_columns df)).
Proof.
  unfold clean, getitem_list, missing_columns. intros H.
  destruct (filter _ columns_to_insert); [contradiction|reflexivity].
Qed.

(* ---------------------------------------------------------------- *)
(** *** The mapping stage *)

(** C1 (as amended).  When every one of the 20 destination labels is carried
    by exactly one column of the renamed frame, the selection succeeds and
    every frame [clean] returns has exactly the 20 destination columns in the
    fixed order (any other source column is gone) and the rows of the input.
    When a destination label is carried by no column, no placeholder is
    made: [clean] raises [KeyError] naming the missing labels. *)
Theorem clean_destination_columns (df : DataFrame) :
  (exactly_once df = true ->
   (exists sel, getitem_list columns_to_insert (rename column_mapping df) = Ok sel
                /\ labels sel = columns_to_insert) /\
   (forall out, clean df = Ok out ->
                labels out = columns_to_insert /\
                List.length (cols out) = 20%nat /\
                nrows out = nrows df)) /\
  (missing_columns df <> [] -> clean df = Raise (KeyError (missing_columns df))).
Proof.
  split.
  - intros H. split.
    + eexists. split.
      * apply getitem_list_single. apply exactly_once_spec. exact H.
      * unfold labels. cbn [cols]. rewrite map_map. cbn [fst]. apply map_id.
    + intros out Hc. destruct (clean_columns df H Hc) as [Hl [Hn _]].
      split; [exact Hl|]. split; [|exact Hn].
      unfold labels in Hl. rewrite <- (length_map fst). rewrite Hl. reflexivity.
  - apply clean_missing.
Qed.

(** C2 (as amended).  On a frame that carries every destination label once,
    in every frame [clean] returns each column has as many values as the
    source column, every value of a timestamp column is a timestamp or
    missing, every value of the date column is a calendar date or missing,
    every value of a numeric column is a number (integral or not) or
    missing, every identifier is an integer of the 64-bit range or missing,
    and every value of a text column is the source value. *)
Theorem clean_coerces_or_nulls (df out : DataFrame) :
  exactly_once df = true ->
  clean df = Ok out ->
  forall k, In k columns_to_insert ->
    Forall2 (coerced (kind_of k)) (column k (rename column_mapping df)) (column k out).
Proof.
  intros H Hc k Hk. destruct (clean_columns df H Hc) as [_ [_ Hcol]].
  apply (rmap_Forall2 (coerce_cell (kind_of k))); [|apply Hcol; exact Hk].
  intros a b. apply coerce_cell_coerced.
Qed.

(** C6 (as amended).  In a complete export, the row with Age 34, Gender
    Female, _id 991 and start 2024-01-03T10:00:00Z, every other cell being
    missing, is cleaned to a row with age the integer 34, gender the text
    Female, submission_id 991, start_time the zoned timestamp and every
    other destination column missing, provided the converters of pandas read
    the three literals as expected. *)
Theorem clean_example_row :
  to_numeric_scalar (Str "34") = Some (Int 34) ->
  to_numeric_scalar (Str "991") = Some (Int 991) ->
  to_datetime_scalar (Str "2024-01-03T10:00:00Z") = Some instant_2024_01_03 ->
  clean example_row = Ok example_cleaned /\
  column "age" example_cleaned = [Num (Int 34)] /\
  column "gender" example_cleaned = [Str "Female"] /\
  column "submission_id" example_cleaned = [Num (Int 991)] /\
  column "start_time" example_cleaned = [Stamp instant_2024_01_03] /\
  utc_offset instant_2024_01_03 = Some 0 /\
  forall k, In k columns_to_insert ->
    mem k ["age"; "gender"; "submission_id"; "start_time"] = false ->
    column k example_cleaned = [Null].
Proof.
  intros Hage Hid Hstart. split.
  - rewrite clean_exactly_once by reflexivity.
    cbn. rewrite Hid. cbn.
    unfold example_cleaned, cleaned_column. cbn.
    rewrite Hage, Hstart. reflexivity.
  - repeat (split; [reflexivity|]).
    intros k Hk Hm. each_destination_column Hk; try reflexivity; discriminate.
Qed.


(* ---------------------------------------------------------------- *)
(** *** The stages of a run, one by one *)

Ltac run_stage :=
  unfold try_except, bind, connect, execute, print, ret, raise, lift; cbn.

Ltac tidy := repeat rewrite <- app_assoc; cbn [app].

Ltac find_in H :=
  solve [ exact H
        | right; find_in H
        | apply in_or_app; right; find_in H ].

(** [fetch_kobo_data] returns, never raises, and leaves the store alone. *)
Lemma fetch_kobo_data_run (env : Env) (w : World) :
  exists L, fetch_kobo_data env w =
            (Ok (fetched env), {| db := db w; issued := issued w; stdout := stdout w ++ L |}).
Proof.
  unfold fetch_kobo_data, fetched, requests_get, raise_for_status, pd_read_csv.
  destruct (remote env) as [|st body]; run_stage.
  - eexists. tidy. reflexivity.
  - destruct ((400 <=? st) && (st <? 600)); run_stage.
    + eexists. tidy. reflexivity.
    + destruct (read_csv body); run_stage; eexists; tidy; reflexivity.
Qed.

(** [create_database_connection] returns, never raises, and sends at most the
    test query. *)
Lemma create_database_connection_run (env : Env) (w : World) :
  exists S L,
    create_database_connection env w =
    (Ok (if connection_fails env then None else Some Engine),
     {| db := db w; issued := issued w ++ S; stdout := stdout w ++ L |}) /\
    forallb harmless S = true.
Proof.
  unfold create_database_connection, connection_fails.
  destruct (reachable env Connecting) eqn:R; run_stage; rewrite ?R; cbn.
  - destruct (rejects env SelectOne) eqn:J; cbn.
    + exists [SelectOne]. eexists. tidy. split; reflexivity.
    + exists [SelectOne]. eexists. tidy. split; reflexivity.
  - exists []. eexists. rewrite app_nil_r. tidy. split; reflexivity.
Qed.

(** When nothing fails, [create_schema_and_table] leaves the schema in place
    and the table empty, whatever the store held. *)
Lemma create_schema_and_table_run (env : Env) (w : World) :
  provisioning_fails env = false ->
  create_schema_and_table env w =
  (Ok tt,
   {| db := {| has_schema := true; table := Some [] |};
      issued := issued w ++ [CreateSchemaIfNotExists; DropTableIfExists;
                             CreateTable customer_feedback];
      stdout := stdout w ++ [SchemaVerified; TableCreated] |}).
Proof.
  unfold provisioning_fails. intros H.
  apply orb_false_iff in H. destruct H as [H H4].
  apply orb_false_iff in H. destruct H as [H H3].
  apply orb_false_iff in H. destruct H as [H1 H2].
  apply negb_false_iff in H1.
  unfold create_schema_and_table. run_stage. rewrite H1. cbn.
  rewrite H2. cbn. rewrite H3. cbn. rewrite H4. cbn. tidy. reflexivity.
Qed.

(** Any failure inside [create_schema_and_table] is reported and raised
    again. *)
Lemma create_schema_and_table_fails (env : Env) (w : World) :
  provisioning_fails env = true ->
  exists e d S L,
    create_schema_and_table env w =
    (Raise e, {| db := d; issued := issued w ++ S; stdout := stdout w ++ L |}) /\
    forallb (fun s => negb (verification s)) S = true /\
    In (ErrorCreating e) L.
Proof.
  unfold provisioning_fails, create_schema_and_table. intros H. run_stage.
  destruct (reachable env Provisioning); cbn.
  - destruct (rejects env CreateSchemaIfNotExists); cbn.
    + do 4 eexists. tidy. split; [reflexivity|]. split; [reflexivity|]. left; reflexivity.
    + destruct (rejects env DropTableIfExists); cbn.
      * do 4 eexists. tidy. split; [reflexivity|]. split; [reflexivity|].
        right; left; reflexivity.
      * destruct (rejects env (CreateTable customer_feedback)); [|discriminate]. cbn.
        do 4 eexists. tidy. split; [reflexivity|]. split; [reflexivity|].
        right; left; reflexivity.
  - exists OperationalError, (db w), [], [ErrorCreating OperationalError].
    rewrite app_nil_r. split; [reflexivity|]. split; [reflexivity|]. left; reflexivity.
Qed.

(** When nothing fails, [clean_and_insert_data] appends the cleaned rows. *)
Lemma clean_and_insert_data_run (env : Env) (df out : DataFrame) (w : World) :
  clean df = Ok out ->
  loading_fails env df = false ->
  has_schema (db w) = true ->
  exists L,
    clean_and_insert_data env df w =
    (Ok tt,
     {| db := {| has_schema := true;
                 table := Some (match table (db w) with
                                | Some old => old ++ rows_of out
                                | None => rows_of out
                                end) |};
        issued := issued w ++ [InsertRows (labels out) (rows_of out)];
        stdout := stdout w ++ L |}).
Proof.
  unfold loading_fails, clean_and_insert_data. intros Hc H Hs. rewrite Hc in H.
  apply orb_false_iff in H. destruct H as [H H2].
  apply orb_false_iff in H. destruct H as [H1 H3]. apply negb_false_iff in H1.
  unfold to_sql. run_stage. rewrite Hc. cbn. rewrite H1. cbn. rewrite H3. cbn. rewrite H2.
  unfold run_stmt. rewrite Hs. cbn. eexists. tidy. reflexivity.
Qed.

(** Any failure inside [clean_and_insert_data] is reported and raised
    again. *)
Lemma clean_and_insert_data_fails (env : Env) (df : DataFrame) (w : World) :
  loading_fails env df = true ->
  exists e d S L,
    clean_and_insert_data env df w =
    (Raise e, {| db := d; issued := issued w ++ S; stdout := stdout w ++ L |}) /\
    forallb (fun s => negb (verification s)) S = true /\
    In (ErrorInserting e) L.
Proof.
  unfold loading_fails, clean_and_insert_data, to_sql. intros H. run_stage.
  destruct (clean df) as [out|e]; cbn.
  - destruct (reachable env Loading); cbn.
    + destruct (repeated_label out); cbn.
      * exists DuplicateColumnError, (db w), []. eexists. rewrite app_nil_r. tidy.
        split; [reflexivity|]. split; [reflexivity|].
        right; right; right; left; reflexivity.
      * cbn in H. rewrite H. cbn.
        do 4 eexists. tidy. split; [reflexivity|]. split; [reflexivity|].
        right; right; right; left; reflexivity.
    + exists OperationalError, (db w), []. eexists. rewrite app_nil_r. tidy.
      split; [reflexivity|]. split; [reflexivity|].
      right; right; right; left; reflexivity.
  - exists e, (db w), []. eexists. rewrite app_nil_r. tidy.
    split; [reflexivity|]. split; [reflexivity|].
    right; right; left; reflexivity.
Qed.

(* ---------------------------------------------------------------- *)
(** *** A whole run *)

Ltac step_print :=
  match goal with
  | |- context [print ?l ?W] =>
      change (print l W)
        with (Ok tt, {| db := db W; issued := issued W; stdout := stdout W ++ [l] |});
      cbv beta iota; cbn [db issued stdout]
  end.

Ltac step_fetch env :=
  match goal with
  | |- context [fetch_kobo_data env ?W] =>
      let L := fresh "L" in
      let E := fresh "E" in
      destruct (fetch_kobo_data_run env W) as [L E]; rewrite E; clear E;
      cbv beta iota; cbn [db issued stdout]
  end.

Ltac step_connect env :=
  match goal with
  | |- context [create_database_connection env ?W] =>
      let S := fresh "S" in
      let L := fresh "L" in
      let E := fresh "E" in
      let HS := fresh "HS" in
      destruct (create_database_connection_run env W) as [S [L [E HS]]]; rewrite E; clear E;
      cbv beta iota; cbn [db issued stdout]
  end.

(** A run whose fetch brings nothing stops there. *)
Lemma main_no_data (env : Env) (w : World) :
  fetched env = None \/ (exists df, fetched env = Some df /\ empty df = true) ->
  exists L, main env w =
            (Ok tt, {| db := db w; issued := issued w; stdout := stdout w ++ L |}).
Proof.
  intros H. unfold main, bind. step_print. step_fetch env.
  destruct H as [H | [df [H He]]]; rewrite H; [|rewrite He];
    step_print; eexists; tidy; reflexivity.
Qed.

(** A run that cannot connect stops there. *)
Lemma main_no_connection (env : Env) (w : World) (df : DataFrame) :
  fetched env = Some df -> empty df = false -> connection_fails env = true ->
  exists S L, main env w =
              (Ok tt, {| db := db w; issued := issued w ++ S; stdout := stdout w ++ L |}) /\
              forallb harmless S = true.
Proof.
  intros Hf He Hc. unfold main, bind. step_print. step_fetch env.
  rewrite Hf, He. step_connect env. rewrite Hc. unfold ret.
  exists S. eexists. tidy. split; [reflexivity|exact HS].
Qed.

Lemma rows_of_length (df : DataFrame) : List.length (rows_of df) = nrows df.
Proof. unfold rows_of. rewrite length_map. apply length_seq. Qed.

Lemma not_empty_rows (df : DataFrame) : empty df = false -> nrows df <> 0%nat.
Proof. unfold empty. destruct (nrows df); [discriminate|]. intros _ H; discriminate. Qed.

Lemma create_database_connection_connects (env : Env) (w : World) :
  connection_fails env = false ->
  create_database_connection env w =
  (Ok (Some Engine),
   {| db := db w; issued := issued w ++ [SelectOne];
      stdout := stdout w ++ [AttemptingConnection; ConnectionEstablished] |}).
Proof.
  unfold connection_fails, create_database_connection. intros H.
  apply orb_false_iff in H. destruct H as [H1 H2]. apply negb_false_iff in H1.
  run_stage. rewrite H1. cbn. rewrite H2. cbn. tidy. reflexivity.
Qed.

Lemma create_database_connection_gives_up (env : Env) (w : World) :
  connection_fails env = true ->
  exists S,
    create_database_connection env w =
    (Ok None,
     {| db := db w; issued := issued w ++ S;
        stdout := stdout w ++ [AttemptingConnection; ErrorConnecting OperationalError;
                               TroubleshootingTips] |}) /\
    (S = [] \/ S = [SelectOne]).
Proof.
  unfold connection_fails, create_database_connection. intros H. run_stage.
  destruct (reachable env Connecting); cbn in *.
  - rewrite H. cbn. exists [SelectOne]. tidy. split; [reflexivity|right; reflexivity].
  - exists []. rewrite app_nil_r. tidy. split; [reflexivity|left; reflexivity].
Qed.

Lemma calm_provisioning (env : Env) : calm env -> provisioning_fails env = false.
Proof. intros [Hr Hj]. unfold provisioning_fails. rewrite Hr, !Hj. reflexivity. Qed.

(** A frame with the destination labels has no repeated label. *)
Lemma clean_no_repeated_label (df out : DataFrame) :
  exactly_once df = true -> clean df = Ok out -> repeated_label out = false.
Proof.
  intros H Hc. destruct (clean_columns df H Hc) as [Hl _].
  unfold repeated_label. rewrite Hl. reflexivity.
Qed.

Lemma calm_loading (env : Env) (df out : DataFrame) :
  calm env -> clean df = Ok out -> repeated_label out = false ->
  loading_fails env df = false.
Proof.
  intros [Hr Hj] Hc Hd. unfold loading_fails. rewrite Hc, Hr, Hd, Hj. reflexivity.
Qed.

Lemma calm_connection (env : Env) : calm env -> connection_fails env = false.
Proof. intros [Hr Hj]. unfold connection_fails. rewrite Hr, Hj. reflexivity. Qed.

(** A run in which nothing fails ends with exactly the cleaned rows in the
    table, whatever the store held before. *)
Lemma main_completes (env : Env) (w : World) (df out : DataFrame) :
  calm env -> fetched env = Some df -> empty df = false -> clean df = Ok out ->
  repeated_label out = false ->
  exists L,
    main env w =
    (Ok tt,
     {| db := {| has_schema := true; table := Some (rows_of out) |};
        issued := issued w ++ [SelectOne; CreateSchemaIfNotExists; DropTableIfExists;
                               CreateTable customer_feedback;
                               InsertRows (labels out) (rows_of out);
                               SelectCount; SelectSample];
        stdout := stdout w ++ L |}).
Proof.
  intros Hcalm Hf He Hc Hd. unfold main, bind. step_print. step_fetch env.
  rewrite Hf, He.
  rewrite (create_database_connection_connects env _ (calm_connection Hcalm)).
  cbv beta iota. cbn [db issued stdout].
  rewrite (create_schema_and_table_run env _ (calm_provisioning Hcalm)).
  cbv beta iota. cbn [db issued stdout].
  match goal with
  | |- context [clean_and_insert_data env df ?W] =>
      destruct (@clean_and_insert_data_run env df out W Hc
                  (@calm_loading env df out Hcalm Hc Hd) eq_refl)
        as [L' E]; rewrite E; clear E
  end.
  cbv beta iota. cbn [db issued stdout table app].
  destruct Hcalm as [Hr Hj].
  unfold connect, execute, print, ret. rewrite Hr. cbn. rewrite Hj. cbn.
  assert (Hpos : (0 <? Z.of_nat (List.length (rows_of out))) = true).
  { apply Z.ltb_lt. rewrite rows_of_length, (clean_nrows df Hc).
    apply not_empty_rows in He. lia. }
  rewrite Hpos. cbn. rewrite Hj. cbn. eexists. tidy. reflexivity.
Qed.

(** C3 (as amended).  When the remote source answers both runs alike with a
    frame of at least one row that carries every destination label once and
    that [clean] accepts, and nothing fails in either run, each run returns
    normally and leaves in the table as many rows as the source has: the
    second run replaces the rows of the first instead of adding to them. *)
Theorem rerun_replaces_rows (env1 env2 : Env) (w : World) (df out : DataFrame) :
  calm env1 -> calm env2 ->
  remote env2 = remote env1 ->
  fetched env1 = Some df -> empty df = false ->
  exactly_once df = true -> clean df = Ok out ->
  let w1 := snd (main env1 w) in
  let w2 := snd (main env2 w1) in
  fst (main env1 w) = Ok tt /\
  row_count w1 = Some (nrows df) /\
  fst (main env2 w1) = Ok tt /\
  row_count w2 = Some (nrows df) /\
  table (db w2) = table (db w1).
Proof.
  intros H1 H2 Hsame Hf He Hx Hc w1 w2.
  assert (Hf2 : fetched env2 = Some df) by (unfold fetched in *; rewrite Hsame; exact Hf).
  assert (Hd : repeated_label out = false) by (apply (clean_no_repeated_label df); assumption).
  destruct (@main_completes env1 w df out H1 Hf He Hc Hd) as [L1 E1].
  assert (Hw1 : w1 = snd (main env1 w)) by reflexivity. rewrite E1 in Hw1. cbn [snd] in Hw1.
  destruct (@main_completes env2 w1 df out H2 Hf2 He Hc Hd) as [L2 E2].
  assert (Hw2 : w2 = snd (main env2 w1)) by reflexivity. rewrite E2 in Hw2. cbn [snd] in Hw2.
  rewrite E1, E2. rewrite Hw2, Hw1. unfold row_count. cbn.
  rewrite rows_of_length, (clean_nrows df Hc). repeat split; reflexivity.
Qed.

(** C4.  When the fetch fails or brings an empty frame, or the connection
    test fails, the run returns normally before provisioning: the store is
    as it was and no statement that creates, drops or inserts was sent. *)
Theorem no_data_no_mutation (env : Env) (w : World) :
  fetched env = None \/
  (exists df, fetched env = Some df /\ empty df = true) \/
  connection_fails env = true ->
  exists S L,
    main env w = (Ok tt, {| db := db w; issued := issued w ++ S; stdout := stdout w ++ L |}) /\
    forallb (fun s => negb (mutation s)) S = true.
Proof.
  assert (Hnone : fetched env = None \/ (exists df, fetched env = Some df /\ empty df = true) ->
                  exists S L,
                    main env w = (Ok tt, {| db := db w; issued := issued w ++ S;
                                            stdout := stdout w ++ L |}) /\
                    forallb (fun s => negb (mutation s)) S = true).
  { intros H. destruct (main_no_data env w H) as [L E].
    exists [], L. rewrite app_nil_r. split; [exact E|reflexivity]. }
  intros [H | [H | H]]; [apply Hnone; left; exact H | apply Hnone; right; exact H |].
  destruct (fetched env) as [df|] eqn:Hf; [|apply Hnone; left; reflexivity].
  destruct (empty df) eqn:He; [apply Hnone; right; exists df; split; [reflexivity|exact He]|].
  destruct (@main_no_connection env w df Hf He H) as [S [L [E HS]]].
  exists S, L. split; [exact E|].
  rewrite forallb_forall in *. intros s Hs. specialize (HS s Hs).
  unfold harmless in HS. apply andb_true_iff in HS. tauto.
Qed.

(** C5 (as amended).  [fetch_kobo_data] never raises and leaves the store
    alone.  It returns a frame exactly when the request is answered with a
    status outside 400..599 and the reader accepts the text, whatever the
    number of rows of that frame; it returns None exactly when the service
    cannot be reached, the status is 4xx or 5xx, or the reader raises. *)
Theorem fetch_kobo_data_returns (env : Env) (w : World) :
  exists r L,
    fetch_kobo_data env w =
    (Ok r, {| db := db w; issued := issued w; stdout := stdout w ++ L |}) /\
    (forall df, r = Some df <->
       exists st body, remote env = Response st body /\
                       (400 <=? st) && (st <? 600) = false /\
                       read_csv body = Some df) /\
    (r = None <->
       remote env = Unreachable \/
       exists st body, remote env = Response st body /\
                       ((400 <=? st) && (st <? 600) = true \/ read_csv body = None)).
Proof.
  destruct (fetch_kobo_data_run env w) as [L E].
  exists (fetched env), L. split; [exact E|]. unfold fetched.
  destruct (remote env) as [|st body].
  - split.
    + intros df. split; [discriminate|]. intros [st [body [H _]]]. discriminate.
    + split; [left; reflexivity|reflexivity].
  - destruct ((400 <=? st) && (st <? 600)) eqn:B.
    + split.
      * intros df. split; [discriminate|].
        intros [st' [body' [H [B' _]]]]. inversion H; subst. congruence.
      * split; [|reflexivity]. intros _. right. exists st, body. auto.
    + split.
      * intros df. split.
        -- intros H. exists st, body. auto.
        -- intros [st' [body' [H [_ R]]]]. inversion H; subst. exact R.
      * split.
        -- intros H. right. exists st, body. auto.
        -- intros [H | [st' [body' [H [B' | R]]]]]; [discriminate| |];
             inversion H; subst; congruence.
Qed.

(** C8 (as amended).  When nothing fails, [create_schema_and_table] sends
    CREATE SCHEMA IF NOT EXISTS, DROP TABLE IF EXISTS and CREATE TABLE
    whatever the store holds, and leaves the table empty.  The table has 22
    columns: the serial primary key [id], two zoned timestamps, one date, the
    BIGINT [submission_id] and the string [uuid], five integers, nine other
    text or string columns, the unzoned timestamp [submission_time], and
    [created_at], an unzoned timestamp with the server's current time as
    default.  Between [id] and [created_at] the columns are the 20 columns
    the cleaning selects, in the same order. *)
Theorem create_schema_and_table_recreates (env : Env) (w : World) :
  provisioning_fails env = false ->
  create_schema_and_table env w =
  (Ok tt,
   {| db := {| has_schema := true; table := Some [] |};
      issued := issued w ++ [CreateSchemaIfNotExists; DropTableIfExists;
                             CreateTable customer_feedback];
      stdout := stdout w ++ [SchemaVerified; TableCreated] |}) /\
  List.length customer_feedback = 22%nat /\
  count_columns (has_type TIMESTAMPTZ) = 2%nat /\
  count_columns (has_type DATE) = 1%nat /\
  count_columns (has_type BIGINT) = 1%nat /\
  option_map ctype (column_named "submission_id") = Some BIGINT /\
  option_map ctype (column_named "uuid") = Some (VARCHAR 255) /\
  count_columns (has_type INTEGER) = 5%nat /\
  count_columns (fun c => is_text c && negb (String.eqb (cname c) "uuid")) = 9%nat /\
  count_columns (fun c => has_type TIMESTAMP c && negb (default_now c)) = 1%nat /\
  option_map ctype (column_named "submission_time") = Some TIMESTAMP /\
  count_columns primary_key = 1%nat /\
  column_named "id" = Some {| cname := "id"; ctype := SERIAL;
                              primary_key := true; default_now := false |} /\
  count_columns default_now = 1%nat /\
  column_named "created_at" = Some {| cname := "created_at"; ctype := TIMESTAMP;
                                      primary_key := false; default_now := true |} /\
  map cname (filter (fun c => negb (primary_key c) && negb (default_now c)) customer_feedback)
  = columns_to_insert.
Proof.
  intros H. split; [apply create_schema_and_table_run; exact H|].
  repeat split; reflexivity.
Qed.

(** C9.  In a run that has fetched rows and connected, any failure inside
    [create_schema_and_table] or [clean_and_insert_data] is reported and
    leaves [main] as a raised exception; neither the count query nor the
    sample query is sent. *)
Theorem failure_aborts_before_verification (env : Env) (w : World) (df : DataFrame) :
  fetched env = Some df -> empty df = false -> connection_fails env = false ->
  provisioning_fails env = true \/ loading_fails env df = true ->
  exists e d S L,
    main env w = (Raise e, {| db := d; issued := issued w ++ S; stdout := stdout w ++ L |}) /\
    forallb (fun s => negb (verification s)) S = true /\
    (In (ErrorCreating e) L \/ In (ErrorInserting e) L).
Proof.
  intros Hf He Hcf Hfail. unfold main, bind. step_print. step_fetch env.
  rewrite Hf, He. rewrite (@create_database_connection_connects env _ Hcf).
  cbv beta iota. cbn [db issued stdout].
  destruct (provisioning_fails env) eqn:Hp.
  - match goal with
    | |- context [create_schema_and_table env ?W] =>
        destruct (@create_schema_and_table_fails env W Hp) as [e [d [S [L' [E [HS HL]]]]]];
        rewrite E; clear E
    end.
    cbn [db issued stdout].
    exists e, d, (SelectOne :: S). eexists. tidy. split; [reflexivity|].
    split; [exact HS|]. left. find_in HL.
  - destruct Hfail as [Hfail|Hfail]; [discriminate|].
    rewrite (@create_schema_and_table_run env _ Hp).
    cbv beta iota. cbn [db issued stdout].
    match goal with
    | |- context [clean_and_insert_data env df ?W] =>
        destruct (@clean_and_insert_data_fails env df W Hfail) as [e [d [S [L' [E [HS HL]]]]]];
        rewrite E; clear E
    end.
    cbn [db issued stdout].
    exists e, d, ([SelectOne; CreateSchemaIfNotExists; DropTableIfExists;
                   CreateTable customer_feedback] ++ S). eexists. tidy.
    split; [reflexivity|]. split; [exact HS|]. right. find_in HL.
Qed.

(** C10 (as amended).  Neither [fetch_kobo_data] nor
    [create_database_connection] raises.  When the service cannot be
    reached, answers with a 4xx or 5xx status, or sends text the reader
    rejects, [fetch_kobo_data] prints the error and its traceback and
    returns None; when the database cannot be reached or refuses the test
    query, [create_database_connection] prints the error and the
    troubleshooting tips and returns None; a run that stops for either
    reason returns normally. *)
Theorem fetch_and_connect_never_raise (env : Env) (w : World) :
  (exists r L, fetch_kobo_data env w = (Ok r, say w L)) /\
  (remote env = Unreachable ->
   fetch_kobo_data env w =
   (Ok None, say w [ErrorFetching ConnectionError; Traceback ConnectionError])) /\
  (forall st body, remote env = Response st body ->
                   (400 <=? st) && (st <? 600) = true ->
   fetch_kobo_data env w =
   (Ok None, say w [ErrorFetching (HTTPError st); Traceback (HTTPError st)])) /\
  (forall st body, remote env = Response st body ->
                   (400 <=? st) && (st <? 600) = false ->
                   read_csv body = None ->
   fetch_kobo_data env w =
   (Ok None, say w [ErrorFetching ParserError; Traceback ParserError])) /\
  (exists r w', create_database_connection env w = (Ok r, w')) /\
  (connection_fails env = true ->
   exists S,
     create_database_connection env w =
     (Ok None,
      {| db := db w; issued := issued w ++ S;
         stdout := stdout w ++ [AttemptingConnection; ErrorConnecting OperationalError;
                                TroubleshootingTips] |})) /\
  (fetched env = None \/ connection_fails env = true -> fst (main env w) = Ok tt).
Proof.
  unfold say. split; [|split; [|split; [|split; [|split; [|split]]]]].
  - destruct (fetch_kobo_data_run env w) as [L E]. eauto.
  - intros H. unfold fetch_kobo_data, requests_get. rewrite H. run_stage. tidy. reflexivity.
  - intros st body H B. unfold fetch_kobo_data, requests_get, raise_for_status.
    rewrite H. run_stage. rewrite B. cbn. tidy. reflexivity.
  - intros st body H B R. unfold fetch_kobo_data, requests_get, raise_for_status, pd_read_csv.
    rewrite H. run_stage. rewrite B. cbn. rewrite R. cbn. tidy. reflexivity.
  - destruct (create_database_connection_run env w) as [S [L [E _]]]. eauto.
  - intros H. destruct (create_database_connection_gives_up env w H) as [S [E _]]. eauto.
  - intros H.
    assert (Hnone : fetched env = None \/ (exists df, fetched env = Some df /\ empty df = true) ->
                    fst (main env w) = Ok tt).
    { intros H'. destruct (main_no_data env w H') as [L E]. rewrite E. reflexivity. }
    destruct H as [H|H]; [apply Hnone; left; exact H|].
    destruct (fetched env) as [df|] eqn:Hf; [|apply Hnone; left; reflexivity].
    destruct (empty df) eqn:He; [apply Hnone; right; exists df; split; [reflexivity|exact He]|].
    destruct (@main_no_connection env w df Hf He H) as [S [L [E _]]].
    rewrite E. reflexivity.
Qed.

(* ---------------------------------------------------------------- *)
(** *** Further properties of the data cleaning *)

Lemma clean_convert_all (df : DataFrame) :
  clean df =
  (let! sel := getitem_list columns_to_insert (rename column_mapping df) in
   convert_all conversions sel).
Proof.
  unfold clean. destruct (getitem_list _ _) as [sel|e]; [|reflexivity].
  cbn [rbind convert_all conversions].
  repeat match goal with
         | |- rbind ?c _ = rbind ?c _ => destruct c; [cbn [rbind]|reflexivity]
         end.
  reflexivity.
Qed.

Lemma lookup_all_labels k d :
  map fst (lookup_all k d) = repeat k (List.length (lookup_all k d)).
Proof.
  assert (H : forall c, In c (lookup_all k d) -> fst c = k) by apply lookup_all_label.
  induction (lookup_all k d) as [|c l IH]; simpl; [reflexivity|].
  rewrite (H c (or_introl eq_refl)). f_equal. apply IH.
  intros c' Hc'. apply H. right. exact Hc'.
Qed.

Lemma lookup_all_count k d :
  List.length (lookup_all k d) = List.length (filter (fun l => String.eqb l k) (labels d)).
Proof.
  unfold lookup_all, labels. induction (cols d) as [|c l IH]; simpl; [reflexivity|].
  destruct (String.eqb (fst c) k); simpl; rewrite IH; reflexivity.
Qed.

Lemma lookup_all_In k d : lookup_all k d <> [] <-> In k (labels d).
Proof.
  unfold lookup_all, labels. induction (cols d) as [|c l IH]; simpl.
  - split; [congruence|contradiction].
  - destruct (String.eqb (fst c) k) eqn:E.
    + apply String.eqb_eq in E. split; [intros _; left; exact E|discriminate].
    + apply String.eqb_neq in E. rewrite IH. split; [intros H; right; exact H|].
      intros [H|H]; [contradiction|exact H].
Qed.

Lemma setitem_labels k s d : lookup_all k d <> [] -> labels (setitem k s d) = labels d.
Proof.
  unfold setitem, labels. cbn [cols]. intros H.
  destruct (lookup_all k d) as [|c0 l0]; [contradiction|]. clear H.
  rewrite map_map. apply map_ext. intros c.
  destruct (String.eqb (fst c) k) eqn:E; [|reflexivity].
  apply String.eqb_eq in E. symmetry. exact E.
Qed.

(** One assignment [df[k] = f(df[k])]: it keeps the labels of the frame; it
    raises KeyError only when no column carries [k], and otherwise whatever
    [f] raises. *)
Lemma convert_inv k f d :
  match convert k f d with
  | Ok d' => labels d' = labels d /\ exists x s, getitem k d = Ok x /\ f x = Ok s
  | Raise e => (lookup_all k d = [] /\ e = KeyError [k]) \/
               exists x, getitem k d = Ok x /\ f x = Raise e
  end.
Proof.
  unfold convert.
  destruct (getitem k d) as [x|e] eqn:G; cbn [rbind].
  - destruct (f x) as [s|e] eqn:F; cbn [rbind].
    + split; [|exists x, s; split; [reflexivity|exact F]].
      apply setitem_labels. unfold getitem in G.
      destruct (lookup_all k d); [discriminate|discriminate].
    + right. exists x. split; [reflexivity|exact F].
  - left. unfold getitem in G. destruct (lookup_all k d) as [|c [|c' l]]; try discriminate.
    split; [reflexivity|]. congruence.
Qed.

(** Every conversion of the script refuses the frame that [df[k]] is when
    several columns carry [k], and raises nothing but ValueError or
    TypeError. *)
Definition sound_conversion (f : item -> result Series) : Prop :=
  (forall fr, exists e, f (ItemFrame fr) = Raise e) /\
  (forall x e, f x = Raise e -> conversion_error e).

Lemma rmap_raise {A B} (f : A -> result B) (l : list A) (e : exn) :
  rmap f l = Raise e -> exists a, In a l /\ f a = Raise e.
Proof.
  induction l as [|a l IH]; simpl; [discriminate|].
  destruct (f a) as [b|e'] eqn:F; cbn [rbind].
  - destruct (rmap f l) as [bs|e'']; cbn [rbind]; [discriminate|].
    intros H. injection H as H. subst e''. destruct (IH eq_refl) as [a' [Ha' Hf]].
    exists a'. split; [right; exact Ha'|exact Hf].
  - intros H. injection H as H. subst e'. exists a. split; [left; reflexivity|exact F].
Qed.

Lemma conversions_sound : Forall (fun kf => sound_conversion (snd kf)) conversions.
Proof.
  assert (Hd : sound_conversion to_datetime).
  { split; [intros fr; eexists; reflexivity|].
    intros [s|fr] e H; simpl in H; [discriminate|]. injection H as H. left. congruence. }
  assert (Hn : sound_conversion to_numeric).
  { split; [intros fr; eexists; reflexivity|].
    intros [s|fr] e H; simpl in H; [discriminate|]. injection H as H. right. congruence. }
  assert (Hdate : sound_conversion (fun x => let! s := to_datetime x in dt_date s)).
  { split; [intros fr; eexists; reflexivity|].
    intros [s|fr] e H; simpl in H.
    - rewrite dt_date_to_datetime in H. discriminate.
    - injection H as H. left. congruence. }
  assert (Hid : sound_conversion (fun x => let! s := to_numeric x in astype_Int64 s)).
  { split; [intros fr; eexists; reflexivity|].
    intros [s|fr] e H; simpl in H.
    - apply rmap_raise in H. destruct H as [a [_ H]]. right.
      unfold astype_Int64_cell in H.
      destruct a as [| |[z|q]| |]; try discriminate; try congruence.
      destruct ((int64_min <=? z) && (z <=? int64_max)); [discriminate|congruence].
    - injection H as H. right. congruence. }
  unfold conversions.
  repeat (apply Forall_cons; [cbn [snd]; assumption|]). apply Forall_nil.
Qed.

Lemma conversions_keys :
  forall kf, In kf conversions -> In (fst kf) columns_to_insert /\ kind_of (fst kf) <> KText.
Proof.
  intros kf H. unfold conversions in H. simpl in H.
  repeat (destruct H as [H|H]; [subst kf; split; [simpl; tauto|discriminate]|]).
  contradiction.
Qed.

Lemma typed_keys_converted k :
  In k columns_to_insert -> kind_of k <> KText -> In k (map fst conversions).
Proof.
  intros Hk Ht. each_destination_column Hk;
    first [ exfalso; apply Ht; reflexivity | simpl; tauto ].
Qed.

(** The conversions taken together. *)
Lemma convert_all_inv l d :
  Forall (fun kf => sound_conversion (snd kf)) l ->
  match convert_all l d with
  | Ok d' => labels d' = labels d /\
             forall k, In k (map fst l) -> List.length (lookup_all k d) = 1%nat
  | Raise e => (exists k, In k (map fst l) /\ ~ In k (labels d)) \/ conversion_error e
  end.
Proof.
  revert d. induction l as [|[k f] l IH]; intros d Hs; cbn [convert_all].
  - split; [reflexivity|]. intros k [].
  - inversion Hs as [|? ? Hf Hl]; subst. cbn [snd] in Hf.
    pose proof (convert_inv k f d) as Hc.
    destruct (convert k f d) as [d1|e]; cbn [rbind].
    + destruct Hc as [Hlab [x [s [Hg Hfx]]]].
      assert (H1 : List.length (lookup_all k d) = 1%nat).
      { unfold getitem in Hg. destruct (lookup_all k d) as [|c [|c' r]]; try discriminate.
        - reflexivity.
        - injection Hg as Hg. subst x. destruct Hf as [Hf _].
          destruct (Hf {| nrows := nrows d; cols := c :: c' :: r |}) as [e He]. congruence. }
      specialize (IH d1 Hl). destruct (convert_all l d1) as [d'|e].
      * destruct IH as [Hlab' Hone]. split; [congruence|].
        intros k' [Hk'|Hk']; [cbn [fst] in Hk'; subst k'; exact H1|].
        rewrite lookup_all_count, <- Hlab, <- lookup_all_count. apply Hone. exact Hk'.
      * destruct IH as [[k' [Hk' Hn]]|He]; [|right; exact He].
        left. exists k'. split; [right; exact Hk'|]. rewrite <- Hlab. exact Hn.
    + destruct Hc as [[Hnone He]|[x [_ Hfx]]].
      * left. exists k. split; [left; reflexivity|].
        intros Hin. apply lookup_all_In in Hin. contradiction.
      * right. destruct Hf as [_ Hf]. apply (Hf x e Hfx).
Qed.

Lemma NoDup_columns_to_insert : NoDup columns_to_insert.
Proof.
  unfold columns_to_insert.
  repeat (constructor;
          [simpl; intros H; repeat (destruct H as [H|H]; [discriminate H|]); exact H|]).
  constructor.
Qed.

Lemma filter_repeat_label (k k' : string) (n : nat) :
  filter (fun l => String.eqb l k) (repeat k' n) = if String.eqb k' k then repeat k' n else [].
Proof.
  induction n as [|n IH]; simpl; [destruct (String.eqb k' k); reflexivity|].
  rewrite IH. destruct (String.eqb k' k); reflexivity.
Qed.

Lemma count_flat_map_repeat (keys : list string) (n : string -> nat) (k : string) :
  NoDup keys -> In k keys ->
  List.length (filter (fun l => String.eqb l k) (flat_map (fun k' => repeat k' (n k')) keys))
  = n k.
Proof.
  induction keys as [|k0 keys IH]; intros Hnd Hin; [contradiction|].
  inversion Hnd as [|? ? Hnot Hnd']; subst. cbn [flat_map].
  rewrite filter_app, length_app, filter_repeat_label.
  destruct (String.eqb k0 k) eqn:E.
  - apply String.eqb_eq in E. subst k0. rewrite repeat_length.
    assert (Hz : filter (fun l => String.eqb l k) (flat_map (fun k' => repeat k' (n k')) keys) = []).
    { clear IH Hnd Hnd' Hin. induction keys as [|k1 keys IH]; [reflexivity|].
      cbn [flat_map]. rewrite filter_app, filter_repeat_label.
      destruct (String.eqb k1 k) eqn:E1.
      - apply String.eqb_eq in E1. exfalso. apply Hnot. left. exact E1.
      - apply IH. intros H. apply Hnot. right. exact H. }
    rewrite Hz. simpl. lia.
  - apply String.eqb_neq in E. destruct Hin as [Hin|Hin]; [contradiction|].
    simpl. apply IH; assumption.
Qed.

(** The labels of a selection: each key as many times as the frame carries
    it. *)
Lemma getitem_list_labels keys d sel :
  getitem_list keys d = Ok sel ->
  labels sel = flat_map (fun k => repeat k (List.length (lookup_all k d))) keys /\
  forall k, In k keys -> lookup_all k d <> [].
Proof.
  unfold getitem_list.
  destruct (filter _ keys) as [|m ms] eqn:Hm; [|discriminate].
  intros H. injection H as H. subst sel. split.
  - unfold labels. cbn [cols]. induction keys as [|k keys IH]; [reflexivity|].
    cbn [flat_map]. rewrite map_app, lookup_all_labels. f_equal. apply IH.
    simpl in Hm. destruct (lookup_all k d); [discriminate|exact Hm].
  - intros k Hk Hnone.
    assert (Hin : In k (filter (fun k => match lookup_all k d with [] => true | _ => false end) keys)).
    { apply filter_In. split; [exact Hk|]. rewrite Hnone. reflexivity. }
    rewrite Hm in Hin. contradiction.
Qed.

(** What a successful cleaning implies, on any frame. *)
Lemma clean_ok_inv (df out : DataFrame) :
  clean df = Ok out ->
  missing_columns df = [] /\
  labels out = flat_map (fun k => repeat k (carried k df)) columns_to_insert /\
  forall k, In k columns_to_insert -> kind_of k <> KText -> carried k df = 1%nat.
Proof.
  rewrite clean_convert_all. intros H.
  destruct (getitem_list columns_to_insert (rename column_mapping df)) as [sel|e] eqn:Hsel;
    [|discriminate]. cbn [rbind] in H.
  destruct (@getitem_list_labels _ _ _ Hsel) as [Hlab Hpresent].
  pose proof (@convert_all_inv conversions sel conversions_sound) as Hinv. rewrite H in Hinv.
  destruct Hinv as [Hout Hone]. split; [|split].
  - unfold missing_columns. unfold getitem_list in Hsel.
    destruct (filter _ columns_to_insert); [reflexivity|discriminate].
  - rewrite Hout. exact Hlab.
  - intros k Hk Ht. specialize (Hone k (@typed_keys_converted k Hk Ht)).
    rewrite lookup_all_count, Hlab in Hone. unfold carried.
    rewrite <- Hone. symmetry.
    apply (@count_flat_map_repeat columns_to_insert
             (fun k => List.length (lookup_all k (rename column_mapping df))) k
             NoDup_columns_to_insert Hk).
Qed.

Lemma selected_carries keys d sel k :
  getitem_list keys d = Ok sel -> NoDup keys -> In k keys ->
  List.length (lookup_all k sel) = List.length (lookup_all k d).
Proof.
  intros Hsel Hnd Hk. destruct (@getitem_list_labels _ _ _ Hsel) as [Hlab _].
  rewrite lookup_all_count, Hlab.
  apply (@count_flat_map_repeat keys (fun k => List.length (lookup_all k d)) k Hnd Hk).
Qed.

Lemma missing_columns_nil (df : DataFrame) (k : string) :
  missing_columns df = [] -> In k columns_to_insert -> (1 <= carried k df)%nat.
Proof.
  unfold missing_columns, carried. intros Hm Hk.
  destruct (lookup_all k (rename column_mapping df)) as [|c l] eqn:E; [|simpl; lia].
  assert (Hin : In k (filter (fun k => match lookup_all k (rename column_mapping df) with
                                       | [] => true
                                       | _ => false
                                       end) columns_to_insert)).
  { apply filter_In. split; [exact Hk|]. rewrite E. reflexivity. }
  rewrite Hm in Hin. contradiction.
Qed.

(** What a failed cleaning implies, on any frame. *)
Lemma clean_raise_inv (df : DataFrame) (e : exn) :
  clean df = Raise e ->
  (missing_columns df <> [] /\ e = KeyError (missing_columns df)) \/
  (missing_columns df = [] /\ conversion_error e).
Proof.
  intros H. destruct (missing_columns df) as [|m ms] eqn:Hm.
  - right. split; [reflexivity|]. rewrite clean_convert_all in H.
    destruct (getitem_list columns_to_insert (rename column_mapping df)) as [sel|e'] eqn:Hsel.
    + cbn [rbind] in H.
      pose proof (@convert_all_inv conversions sel conversions_sound) as Hinv.
      rewrite H in Hinv. destruct Hinv as [[k [Hk Hn]]|He]; [|exact He].
      exfalso. apply Hn. apply lookup_all_In.
      apply in_map_iff in Hk. destruct Hk as [kf [Hfst Hkf]]. subst k.
      destruct (@conversions_keys kf Hkf) as [Hin _].
      pose proof (@selected_carries _ _ _ _ Hsel NoDup_columns_to_insert Hin) as Hc.
      pose proof (@missing_columns_nil df (fst kf) Hm Hin) as Hone. unfold carried in Hone.
      intros Hnil. rewrite Hnil in Hc. simpl in Hc. lia.
    + exfalso. unfold getitem_list in Hsel. unfold missing_columns in Hm.
      rewrite Hm in Hsel. discriminate.
  - left. split; [discriminate|].
    rewrite clean_missing in H by (rewrite Hm; discriminate). rewrite Hm in H. congruence.
Qed.

Lemma flat_map_repeat_length (keys : list string) (n : string -> nat) :
  List.length (flat_map (fun k => repeat k (n k)) keys) = list_sum (map n keys).
Proof.
  induction keys as [|k keys IH]; simpl; [reflexivity|].
  rewrite length_app, repeat_length, IH. reflexivity.
Qed.

Lemma list_sum_all_one (keys : list string) (n : string -> nat) :
  (forall k, In k keys -> (1 <= n k)%nat) ->
  (list_sum (map n keys) = List.length keys <-> forall k, In k keys -> n k = 1%nat).
Proof.
  induction keys as [|k keys IH]; intros Hpos; simpl.
  - split; [intros _ k []|reflexivity].
  - assert (Hk : (1 <= n k)%nat) by (apply Hpos; left; reflexivity).
    assert (Hrest : forall k', In k' keys -> (1 <= n k')%nat)
      by (intros k' Hk'; apply Hpos; right; exact Hk').
    assert (Hge : (List.length keys <= list_sum (map n keys))%nat).
    { clear - Hrest. induction keys as [|k1 keys IH]; simpl; [lia|].
      assert ((1 <= n k1)%nat) by (apply Hrest; left; reflexivity).
      assert ((List.length keys <= list_sum (map n keys))%nat)
        by (apply IH; intros k' Hk'; apply Hrest; right; exact Hk').
      lia. }
    specialize (IH Hrest). split.
    + intros Hsum k' [Hk'|Hk']; [subst k'; lia|]. apply IH; [lia|exact Hk'].
    + intros Hall. rewrite (Hall k (or_introl eq_refl)).
      assert (list_sum (map n keys) = List.length keys)
        by (apply IH; intros k' Hk'; apply Hall; right; exact Hk').
      lia.
Qed.

(** X2.  The frame a cleaning returns has the destination labels in the fixed
    order, each as many times as the renamed source carries it; it has
    exactly 20 columns if and only if every destination label was carried
    once. *)
Theorem clean_success_columns (df out : DataFrame) :
  clean df = Ok out ->
  labels out = flat_map (fun k => repeat k (carried k df)) columns_to_insert /\
  (forall k, In k columns_to_insert -> (1 <= carried k df)%nat) /\
  (List.length (cols out) = 20%nat <-> exactly_once df = true).
Proof.
  intros H. destruct (@clean_ok_inv _ _ H) as [Hm [Hlab _]].
  split; [exact Hlab|]. split; [intros k Hk; apply missing_columns_nil; assumption|].
  assert (Hlen : List.length (cols out) = list_sum (map (fun k => carried k df) columns_to_insert)).
  { rewrite <- (length_map fst). fold (labels out). rewrite Hlab.
    apply flat_map_repeat_length. }
  rewrite Hlen. change 20%nat with (List.length columns_to_insert).
  rewrite (@list_sum_all_one columns_to_insert (fun k => carried k df))
    by (intros k Hk; apply missing_columns_nil; assumption).
  unfold exactly_once. rewrite forallb_forall. split.
  - intros Hall k Hk. apply Nat.eqb_eq. apply (Hall k Hk).
  - intros Hall k Hk. apply Nat.eqb_eq. apply (Hall k Hk).
Qed.

(** X3.  When no destination column is missing, a converted destination column
    that the renamed source carries more than once makes the cleaning
    raise ValueError or TypeError: [df[k]] is then a frame, which
    [to_datetime] and [to_numeric] refuse. *)
Theorem clean_rejects_repeated_typed_column (df : DataFrame) (k : string) :
  missing_columns df = [] ->
  In k columns_to_insert -> kind_of k <> KText ->
  carried k df <> 1%nat ->
  exists e, clean df = Raise e /\ conversion_error e.
Proof.
  intros Hm Hk Ht Hn. destruct (clean df) as [out|e] eqn:H.
  - exfalso. apply Hn. destruct (@clean_ok_inv _ _ H) as [_ [_ Hone]]. apply Hone; assumption.
  - exists e. split; [reflexivity|].
    destruct (@clean_raise_inv _ _ H) as [[Hne _]|[_ He]]; [contradiction|exact He].
Qed.

(** X4.  The exceptions of the cleaning, on any frame: it raises KeyError
    exactly when a destination column is missing, and then names the missing
    columns; any other exception it raises is a ValueError or a TypeError of
    a conversion. *)
Theorem clean_raises_only (df : DataFrame) :
  (forall m, clean df = Raise (KeyError m) <-> m = missing_columns df /\ m <> []) /\
  (forall e, clean df = Raise e ->
             e = KeyError (missing_columns df) \/ e = ValueError \/ e = TypeError).
Proof.
  split.
  - intros m. split.
    + intros H. destruct (@clean_raise_inv _ _ H) as [[Hne He]|[_ [He|He]]]; try discriminate.
      injection He as He. subst m. split; [reflexivity|exact Hne].
    + intros [Hm Hne]. subst m. apply clean_missing. exact Hne.
  - intros e H. destruct (@clean_raise_inv _ _ H) as [[_ He]|[_ [He|He]]]; auto.
Qed.

Lemma assoc_In k m d : assoc k m = Some d -> In (k, d) m.
Proof.
  induction m as [|[a b] m IH]; simpl; [discriminate|].
  destruct (String.eqb a k) eqn:E.
  - apply String.eqb_eq in E. intros H. injection H as H. subst. left. reflexivity.
  - intros H. right. apply IH. exact H.
Qed.

Lemma In_assoc k d m : NoDup (map fst m) -> In (k, d) m -> assoc k m = Some d.
Proof.
  induction m as [|[a b] m IH]; simpl; intros Hnd Hin; [contradiction|].
  inversion Hnd as [|? ? Hnot Hnd']; subst.
  destruct Hin as [Hin|Hin].
  - injection Hin as Ha Hb. subst. rewrite String.eqb_refl. reflexivity.
  - destruct (String.eqb a k) eqn:E; [|apply IH; assumption].
    apply String.eqb_eq in E. subst a. exfalso. apply Hnot.
    apply in_map_iff. exists (k, d). split; [reflexivity|exact Hin].
Qed.

Lemma NoDup_snd_inj (m : list (string * string)) s s' d :
  NoDup (map snd m) -> In (s, d) m -> In (s', d) m -> s = s'.
Proof.
  induction m as [|[a b] m IH]; simpl; intros Hnd H1 H2; [contradiction|].
  inversion Hnd as [|? ? Hnot Hnd']; subst.
  destruct H1 as [H1|H1]; destruct H2 as [H2|H2].
  - congruence.
  - injection H1 as Ha Hb. subst. exfalso. apply Hnot.
    apply in_map_iff. exists (s', d). split; [reflexivity|exact H2].
  - injection H2 as Ha Hb. subst. exfalso. apply Hnot.
    apply in_map_iff. exists (s, d). split; [reflexivity|exact H1].
  - apply IH; assumption.
Qed.

Lemma NoDup_source_columns : NoDup source_columns.
Proof.
  unfold source_columns, column_mapping. cbn [map fst].
  repeat (constructor;
          [simpl; intros H; repeat (destruct H as [H|H]; [discriminate H|]); exact H|]).
  constructor.
Qed.

Lemma count_once (L : list string) (s : string) :
  NoDup L -> In s L -> List.length (filter (fun l => String.eqb l s) L) = 1%nat.
Proof.
  induction L as [|a L IH]; intros Hnd Hin; [contradiction|].
  inversion Hnd as [|? ? Hnot Hnd']; subst. simpl.
  destruct (String.eqb a s) eqn:E.
  - apply String.eqb_eq in E. subst a. simpl. f_equal.
    assert (Hz : filter (fun l => String.eqb l s) L = []).
    { clear - Hnot. induction L as [|b L IH]; [reflexivity|]. simpl.
      destruct (String.eqb b s) eqn:E.
      - apply String.eqb_eq in E. exfalso. apply Hnot. left. exact E.
      - apply IH. intros H. apply Hnot. right. exact H. }
    rewrite Hz. reflexivity.
  - apply String.eqb_neq in E. destruct Hin as [Hin|Hin]; [contradiction|].
    apply IH; assumption.
Qed.

Lemma count_renamed (C : list (string * Series)) (d s : string) :
  (forall l, In l (map fst C) ->
             String.eqb (rename_label column_mapping l) d = String.eqb l s) ->
  List.length (filter (fun l => String.eqb l d)
                 (map fst (map (fun c => (rename_label column_mapping (fst c), snd c)) C)))
  = List.length (filter (fun l => String.eqb l s) (map fst C)).
Proof.
  induction C as [|c C IH]; intros H; [reflexivity|].
  cbn [map filter fst]. rewrite (H (fst c) (or_introl eq_refl)).
  assert (IH' := IH (fun l Hl => H l (or_intror Hl))).
  destruct (String.eqb (fst c) s); cbn [List.length]; rewrite IH'; reflexivity.
Qed.

(** X1.  An export whose labels are distinct, none of them being a destination
    name, and which has the 20 source columns, carries every destination
    label exactly once after renaming: no column is missing and the
    selection of the cleaning keeps one column per destination label. *)
Theorem complete_export_exactly_once (df : DataFrame) :
  NoDup (labels df) ->
  (forall k, In k (labels df) -> ~ In k columns_to_insert) ->
  (forall s, In s source_columns -> In s (labels df)) ->
  exactly_once df = true /\
  missing_columns df = [] /\
  exists sel, getitem_list columns_to_insert (rename column_mapping df) = Ok sel /\
              labels sel = columns_to_insert.
Proof.
  intros Hnd Hfresh Hall.
  assert (Hone : forall d, In d columns_to_insert -> carried d df = 1%nat).
  { intros d Hd. unfold carried. rewrite lookup_all_count.
    assert (Hd' : In d (map snd column_mapping)) by exact Hd.
    apply in_map_iff in Hd'. destruct Hd' as [[s d'] [Hsd Hin]]. cbn [snd] in Hsd. subst d'.
    assert (Hs : In s (labels df)).
    { apply Hall. unfold source_columns. apply in_map_iff. exists (s, d). split; [reflexivity|exact Hin]. }
    rewrite <- (@count_once _ _ Hnd Hs).
    unfold labels, rename. cbn [cols].
    assert (Hdf : forall l, In l (map fst (cols df)) ->
                            String.eqb (rename_label column_mapping l) d = String.eqb l s).
    { intros l Hl. destruct (String.eqb l s) eqn:E.
      - apply String.eqb_eq in E. subst l. apply String.eqb_eq. unfold rename_label.
        rewrite (@In_assoc s d column_mapping NoDup_source_columns Hin). reflexivity.
      - apply String.eqb_neq in E. apply String.eqb_neq. intros Hr. apply E.
        unfold rename_label in Hr. destruct (assoc l column_mapping) as [d'|] eqn:A.
        + subst d'. apply assoc_In in A.
          apply (@NoDup_snd_inj column_mapping l s d NoDup_columns_to_insert A Hin).
        + subst l. exfalso. apply (Hfresh d Hl). exact Hd. }
    apply count_renamed. exact Hdf. }
  assert (Hex : exactly_once df = true).
  { unfold exactly_once. apply forallb_forall. intros k Hk. apply Nat.eqb_eq. apply (Hone k Hk). }
  split; [exact Hex|]. split.
  - unfold missing_columns.
    assert (Hnone : forall k, In k columns_to_insert ->
              match lookup_all k (rename column_mapping df) with [] => true | _ => false end = false).
    { intros k Hk. specialize (Hone k Hk). unfold carried in Hone.
      destruct (lookup_all k (rename column_mapping df)); [discriminate|reflexivity]. }
    clear - Hnone. induction columns_to_insert as [|k keys IH]; [reflexivity|].
    simpl. rewrite (Hnone k (or_introl eq_refl)). apply IH.
    intros k' Hk'. apply Hnone. right. exact Hk'.
  - eexists. split.
    + apply getitem_list_single. apply exactly_once_spec. exact Hex.
    + unfold labels. cbn [cols]. rewrite map_map. cbn [fst]. apply map_id.
Qed.

(* ---------------------------------------------------------------- *)
(** *** Further properties of a run *)

Lemma fetch_kobo_data_fetches (env : Env) (w : World) (df : DataFrame) :
  fetched env = Some df ->
  fetch_kobo_data env w =
  (Ok (Some df),
   say w [DataFetched (nrows df, List.length (cols df)); ColumnNames (labels df);
          FirstRows (head 3 df)]).
Proof.
  unfold fetched, fetch_kobo_data, requests_get, raise_for_status, pd_read_csv, say.
  destruct (remote env) as [|st body]; [discriminate|].
  destruct ((400 <=? st) && (st <? 600)) eqn:B; [discriminate|].
  intros H. run_stage. rewrite B. cbn. rewrite H. cbn. tidy. reflexivity.
Qed.

Lemma clean_and_insert_data_loads (env : Env) (df out : DataFrame) (w : World) :
  clean df = Ok out ->
  loading_fails env df = false ->
  has_schema (db w) = true ->
  clean_and_insert_data env df w =
  (Ok tt,
   {| db := {| has_schema := true;
               table := Some (match table (db w) with
                              | Some old => old ++ rows_of out
                              | None => rows_of out
                              end) |};
      issued := issued w ++ [InsertRows (labels out) (rows_of out)];
      stdout := stdout w ++ [StartingCleaning;
                             ColumnsAfterRenaming (firstn 5 (labels (rename column_mapping df)));
                             Preview (head 5 out);
                             Inserted (nrows out)] |}).
Proof.
  unfold loading_fails, clean_and_insert_data. intros Hc H Hs. rewrite Hc in H.
  apply orb_false_iff in H. destruct H as [H H2].
  apply orb_false_iff in H. destruct H as [H1 H3]. apply negb_false_iff in H1.
  unfold to_sql. run_stage. rewrite Hc. cbn. rewrite H1. cbn. rewrite H3. cbn. rewrite H2.
  unfold run_stmt. rewrite Hs. cbn. tidy. reflexivity.
Qed.

(** A failed load changes nothing in the store. *)
Lemma clean_and_insert_data_rolls_back (env : Env) (df : DataFrame) (w : World) :
  loading_fails env df = true ->
  exists e S L,
    clean_and_insert_data env df w =
    (Raise e, {| db := db w; issued := issued w ++ S; stdout := stdout w ++ L |}) /\
    map position S = firstn (List.length S) [4%nat].
Proof.
  unfold loading_fails, clean_and_insert_data, to_sql. intros H. run_stage.
  destruct (clean df) as [out|e]; cbn.
  - destruct (reachable env Loading); cbn.
    + destruct (repeated_label out); cbn.
      * exists DuplicateColumnError, []. eexists. rewrite app_nil_r. tidy.
        split; reflexivity.
      * cbn in H. rewrite H. cbn. do 3 eexists. tidy. split; reflexivity.
    + exists OperationalError, []. eexists. rewrite app_nil_r. tidy. split; reflexivity.
  - exists e, []. eexists. rewrite app_nil_r. tidy. split; reflexivity.
Qed.

(** X6.  In a run where nothing fails, on an export that carries every
    destination label once and that [clean] accepts, [main] returns
    normally, the number of rows it reports as inserted and the total the
    count query reads back are both the number of rows fetched, whatever
    the table held before, and the last line printed is the completion
    line. *)
Theorem fault_free_run_report (env : Env) (w : World) (df out : DataFrame) :
  calm env -> fetched env = Some df -> empty df = false ->
  exactly_once df = true -> clean df = Ok out ->
  exists L,
    fst (main env w) = Ok tt /\
    stdout (snd (main env w)) = stdout w ++ L ++ [Completed] /\
    In (Inserted (nrows df)) L /\
    In (TotalRecords (Z.of_nat (nrows df))) L.
Proof.
  intros Hcalm Hf He Hx Hc.
  assert (Hd : repeated_label out = false) by (apply (clean_no_repeated_label df); assumption).
  unfold main, bind. step_print.
  rewrite (@fetch_kobo_data_fetches env _ df Hf). unfold say.
  cbv beta iota. cbn [db issued stdout]. rewrite He.
  rewrite (@create_database_connection_connects env _ (calm_connection Hcalm)).
  cbv beta iota. cbn [db issued stdout].
  rewrite (@create_schema_and_table_run env _ (calm_provisioning Hcalm)).
  cbv beta iota. cbn [db issued stdout].
  match goal with
  | |- context [clean_and_insert_data env df ?W] =>
      rewrite (@clean_and_insert_data_loads env df out W Hc
                 (@calm_loading env df out Hcalm Hc Hd) eq_refl)
  end.
  cbv beta iota. cbn [db issued stdout table app].
  destruct Hcalm as [Hr Hj].
  unfold connect, execute, print, ret. rewrite Hr. cbn. rewrite Hj. cbn.
  assert (Hpos : (0 <? Z.of_nat (List.length (rows_of out))) = true).
  { apply Z.ltb_lt. rewrite rows_of_length, (clean_nrows df Hc).
    apply not_empty_rows in He. lia. }
  rewrite Hpos. cbn. rewrite Hj. cbn.
  rewrite rows_of_length, (clean_nrows df Hc). tidy.
  eexists [_; _; _; _; _; _; _; _; _; _; _; _; _; _].
  split; [reflexivity|]. split; [reflexivity|].
  split; do 11 right; [left|right; left]; reflexivity.
Qed.

(** X8.  When the load fails after a successful provisioning (the cleaning
    raises, the database is lost, the frame has a repeated label or the
    INSERT is refused), [main] raises and the table is left empty: the rows
    of earlier runs are gone and none of this run is there. *)
Theorem failed_load_leaves_empty_table (env : Env) (w : World) (df : DataFrame) :
  fetched env = Some df -> empty df = false ->
  connection_fails env = false -> provisioning_fails env = false ->
  loading_fails env df = true ->
  exists e,
    fst (main env w) = Raise e /\
    db (snd (main env w)) = {| has_schema := true; table := Some [] |}.
Proof.
  intros Hf He Hcf Hp Hl. unfold main, bind. step_print.
  rewrite (@fetch_kobo_data_fetches env _ df Hf). unfold say.
  cbv beta iota. cbn [db issued stdout]. rewrite He.
  rewrite (@create_database_connection_connects env _ Hcf).
  cbv beta iota. cbn [db issued stdout].
  rewrite (@create_schema_and_table_run env _ Hp).
  cbv beta iota. cbn [db issued stdout].
  match goal with
  | |- context [clean_and_insert_data env df ?W] =>
      destruct (@clean_and_insert_data_rolls_back env df W Hl) as [e [S [L [E _]]]];
      rewrite E; clear E
  end.
  exists e. split; reflexivity.
Qed.

(** X9.  What a failed provisioning leaves in the store: the table is as it was
    unless the DROP was accepted, and then there is no table. *)
Theorem failed_provisioning_store (env : Env) (w : World) :
  provisioning_fails env = true ->
  exists e,
    fst (create_schema_and_table env w) = Raise e /\
    table (db (snd (create_schema_and_table env w))) =
    (if reachable env Provisioning
        && negb (rejects env CreateSchemaIfNotExists)
        && negb (rejects env DropTableIfExists)
     then None
     else table (db w)).
Proof.
  unfold provisioning_fails, create_schema_and_table. intros H. run_stage.
  destruct (reachable env Provisioning); cbn.
  - destruct (rejects env CreateSchemaIfNotExists); cbn.
    + eexists. split; reflexivity.
    + destruct (rejects env DropTableIfExists); cbn.
      * eexists. split; reflexivity.
      * destruct (rejects env (CreateTable customer_feedback)); [|discriminate]. cbn.
        eexists. split; reflexivity.
  - eexists. split; reflexivity.
Qed.

(** X10.  When the verification fails after a successful load (so of a
    frame without a repeated label, which [to_sql] would refuse), [main]
    raises but the cleaned rows stay in the table, and the completion line
    is not printed. *)
Theorem failed_verification_keeps_rows (env : Env) (w : World) (df out : DataFrame) :
  fetched env = Some df -> empty df = false -> clean df = Ok out ->
  connection_fails env = false -> provisioning_fails env = false ->
  loading_fails env df = false ->
  verification_fails env = true ->
  exists e L,
    fst (main env w) = Raise e /\
    db (snd (main env w)) = {| has_schema := true; table := Some (rows_of out) |} /\
    stdout (snd (main env w)) = stdout w ++ L /\
    ~ In Completed L.
Proof.
  intros Hf He Hc Hcf Hp Hl Hv. unfold main, bind. step_print.
  rewrite (@fetch_kobo_data_fetches env _ df Hf). unfold say.
  cbv beta iota. cbn [db issued stdout]. rewrite He.
  rewrite (@create_database_connection_connects env _ Hcf).
  cbv beta iota. cbn [db issued stdout].
  rewrite (@create_schema_and_table_run env _ Hp).
  cbv beta iota. cbn [db issued stdout].
  match goal with
  | |- context [clean_and_insert_data env df ?W] =>
      rewrite (@clean_and_insert_data_loads env df out W Hc Hl eq_refl)
  end.
  cbv beta iota. cbn [db issued stdout table app].
  assert (Hpos : (0 <? Z.of_nat (List.length (rows_of out))) = true).
  { apply Z.ltb_lt. rewrite rows_of_length, (clean_nrows df Hc).
    apply not_empty_rows in He. lia. }
  unfold verification_fails in Hv. unfold connect, execute, print, ret, raise.
  destruct (reachable env Verifying); cbn.
  - destruct (rejects env SelectCount); cbn.
    + do 2 eexists. split; [reflexivity|]. split; [reflexivity|]. tidy.
      split; [reflexivity|]. simpl. intuition discriminate.
    + rewrite Hpos. cbn. destruct (rejects env SelectSample); [|discriminate]. cbn.
      do 2 eexists. split; [reflexivity|]. split; [reflexivity|]. tidy.
      split; [reflexivity|]. simpl. intuition discriminate.
  - do 2 eexists. split; [reflexivity|]. split; [reflexivity|]. tidy.
    split; [reflexivity|]. simpl. intuition discriminate.
Qed.

Lemma create_schema_and_table_gives_up (env : Env) (w : World) :
  provisioning_fails env = true ->
  exists e d S L,
    create_schema_and_table env w =
    (Raise e, {| db := d; issued := issued w ++ S; stdout := stdout w ++ L |}) /\
    map position S = firstn (List.length S) [1%nat; 2%nat; 3%nat] /\
    (table d = table (db w) \/ table d = None).
Proof.
  unfold provisioning_fails, create_schema_and_table. intros H. run_stage.
  destruct (reachable env Provisioning); cbn.
  - destruct (rejects env CreateSchemaIfNotExists); cbn.
    + do 4 eexists. tidy. split; [reflexivity|]. split; [reflexivity|left; reflexivity].
    + destruct (rejects env DropTableIfExists); cbn.
      * do 4 eexists. tidy. split; [reflexivity|]. split; [reflexivity|left; reflexivity].
      * destruct (rejects env (CreateTable customer_feedback)); [|discriminate]. cbn.
        do 4 eexists. tidy. split; [reflexivity|]. split; [reflexivity|right; reflexivity].
  - exists OperationalError, (db w), []. eexists. rewrite app_nil_r.
    split; [reflexivity|]. split; [reflexivity|left; reflexivity].
Qed.

(** X11.  In every run, whatever fails, the statements of the script's own
    that are sent (those of [stmt]: what the libraries send on their own
    behalf is not counted) are an initial part of the script's order: the
    connection test, CREATE SCHEMA, DROP TABLE, CREATE TABLE, the INSERT,
    the count, the sample; none of them is sent twice, out of turn, or
    after one that failed. *)
Theorem statements_in_script_order (env : Env) (w : World) :
  exists S,
    issued (snd (main env w)) = issued w ++ S /\
    map position S = seq 0 (List.length S).
Proof.
  destruct (fetched env) as [df|] eqn:Hf.
  2: { destruct (main_no_data env w (or_introl Hf)) as [L E]. rewrite E.
       exists []. cbn [snd issued]. rewrite app_nil_r. split; reflexivity. }
  destruct (empty df) eqn:He.
  { destruct (main_no_data env w (or_intror (ex_intro _ df (conj Hf He)))) as [L E]. rewrite E.
    exists []. cbn [snd issued]. rewrite app_nil_r. split; reflexivity. }
  unfold main, bind. step_print.
  rewrite (@fetch_kobo_data_fetches env _ df Hf). unfold say.
  cbv beta iota. cbn [db issued stdout]. rewrite He.
  destruct (connection_fails env) eqn:Hcf.
  { match goal with
    | |- context [create_database_connection env ?W] =>
        destruct (@create_database_connection_gives_up env W Hcf) as [S [E HS]]; rewrite E; clear E
    end.
    cbv beta iota. unfold ret. cbn [snd issued].
    exists S. split; [reflexivity|]. destruct HS as [HS|HS]; subst S; reflexivity. }
  rewrite (@create_database_connection_connects env _ Hcf).
  cbv beta iota. cbn [db issued stdout].
  destruct (provisioning_fails env) eqn:Hp.
  { match goal with
    | |- context [create_schema_and_table env ?W] =>
        destruct (@create_schema_and_table_gives_up env W Hp) as [e [d [S [L [E [HS _]]]]]];
        rewrite E; clear E
    end.
    cbn [snd issued]. exists (SelectOne :: S). tidy. split; [reflexivity|].
    cbn [map position List.length seq]. f_equal. rewrite HS.
    destruct S as [|s1 [|s2 [|s3 [|s4 S]]]]; try reflexivity; discriminate. }
  rewrite (@create_schema_and_table_run env _ Hp).
  cbv beta iota. cbn [db issued stdout].
  destruct (loading_fails env df) eqn:Hl.
  { match goal with
    | |- context [clean_and_insert_data env df ?W] =>
        destruct (@clean_and_insert_data_rolls_back env df W Hl) as [e [S [L [E HS]]]];
        rewrite E; clear E
    end.
    cbn [snd issued].
    exists ([SelectOne; CreateSchemaIfNotExists; DropTableIfExists;
             CreateTable customer_feedback] ++ S).
    tidy. split; [reflexivity|].
    cbn [map position List.length seq app]. do 4 f_equal. rewrite HS.
    destruct S as [|s1 [|s2 S]]; try reflexivity; discriminate. }
  destruct (clean df) as [out|e] eqn:Hc;
    [|unfold loading_fails in Hl; rewrite Hc in Hl; discriminate].
  match goal with
  | |- context [clean_and_insert_data env df ?W] =>
      rewrite (@clean_and_insert_data_loads env df out W Hc Hl eq_refl)
  end.
  cbv beta iota. cbn [db issued stdout table app].
  unfold connect, execute, print, ret, raise.
  destruct (reachable env Verifying); cbn.
  - destruct (rejects env SelectCount); cbn.
    + eexists. tidy. split; reflexivity.
    + destruct (0 <? Z.of_nat (List.length (rows_of out))); cbn.
      * destruct (rejects env SelectSample); cbn; eexists; tidy; split; reflexivity.
      * eexists. tidy. split; reflexivity.
  - eexists. tidy. split; reflexivity.
Qed.

(** X12.  After any run, whatever fails, the table is as it was before the run,
    or absent, or empty, or holds exactly the cleaned rows of the fetched
    frame: rows of an earlier run are never mixed with rows of this one, and
    the rows of this run are never loaded in part. *)
Theorem table_never_mixes_rows (env : Env) (w : World) :
  let t := table (db (snd (main env w))) in
  t = table (db w) \/ t = None \/ t = Some [] \/
  exists df out, fetched env = Some df /\ clean df = Ok out /\ t = Some (rows_of out).
Proof.
  intros t. subst t.
  destruct (fetched env) as [df|] eqn:Hf.
  2: { destruct (main_no_data env w (or_introl Hf)) as [L E]. rewrite E. left. reflexivity. }
  destruct (empty df) eqn:He.
  { destruct (main_no_data env w (or_intror (ex_intro _ df (conj Hf He)))) as [L E]. rewrite E.
    left. reflexivity. }
  unfold main, bind. step_print.
  rewrite (@fetch_kobo_data_fetches env _ df Hf). unfold say.
  cbv beta iota. cbn [db issued stdout]. rewrite He.
  destruct (connection_fails env) eqn:Hcf.
  { match goal with
    | |- context [create_database_connection env ?W] =>
        destruct (@create_database_connection_gives_up env W Hcf) as [S [E HS]]; rewrite E; clear E
    end.
    left. reflexivity. }
  rewrite (@create_database_connection_connects env _ Hcf).
  cbv beta iota. cbn [db issued stdout].
  destruct (provisioning_fails env) eqn:Hp.
  { match goal with
    | |- context [create_schema_and_table env ?W] =>
        destruct (@create_schema_and_table_gives_up env W Hp) as [e [d [S [L [E [_ Ht]]]]]];
        rewrite E; clear E
    end.
    cbn [snd db] in *. destruct Ht as [Ht|Ht]; [left|right; left]; exact Ht. }
  rewrite (@create_schema_and_table_run env _ Hp).
  cbv beta iota. cbn [db issued stdout].
  destruct (loading_fails env df) eqn:Hl.
  { match goal with
    | |- context [clean_and_insert_data env df ?W] =>
        destruct (@clean_and_insert_data_rolls_back env df W Hl) as [e [S [L [E HS]]]];
        rewrite E; clear E
    end.
    right. right. left. reflexivity. }
  destruct (clean df) as [out|e] eqn:Hc;
    [|unfold loading_fails in Hl; rewrite Hc in Hl; discriminate].
  match goal with
  | |- context [clean_and_insert_data env df ?W] =>
      rewrite (@clean_and_insert_data_loads env df out W Hc Hl eq_refl)
  end.
  cbv beta iota. cbn [db issued stdout table app].
  right. right. right. exists df, out. split; [reflexivity|]. split; [exact Hc|].
  unfold connect, execute, print, ret, raise.
  destruct (reachable env Verifying); cbn; [|reflexivity].
  destruct (rejects env SelectCount); cbn; [reflexivity|].
  destruct (0 <? Z.of_nat (List.length (rows_of out))); cbn; [|reflexivity].
  destruct (rejects env SelectSample); reflexivity.
Qed.

(** X7.  In a run where nothing fails, on an export that carries every
    destination label once, the INSERT names exactly the columns of the
    created table other than [id] and [created_at], in the table's order,
    and every row it sends has one value for each of these 20 columns. *)
Theorem insert_matches_table (env : Env) (w : World) (df out : DataFrame) :
  calm env -> fetched env = Some df -> empty df = false ->
  exactly_once df = true -> clean df = Ok out ->
  In (InsertRows
        (map cname (filter (fun c => negb (primary_key c) && negb (default_now c))
                      customer_feedback))
        (rows_of out))
     (issued (snd (main env w))) /\
  In (CreateTable customer_feedback) (issued (snd (main env w))) /\
  List.length (rows_of out) = nrows df /\
  Forall (fun r => List.length r = 20%nat) (rows_of out).
Proof.
  intros Hcalm Hf He Hx Hc.
  destruct (@main_completes env w df out Hcalm Hf He Hc
              (@clean_no_repeated_label df out Hx Hc)) as [L E]. rewrite E.
  cbn [snd issued].
  destruct (clean_columns df Hx Hc) as [Hlab [Hn _]].
  split; [|split; [|split]].
  - change (map cname (filter (fun c => negb (primary_key c) && negb (default_now c))
                          customer_feedback)) with columns_to_insert.
    rewrite <- Hlab. apply in_or_app. right. simpl. tauto.
  - apply in_or_app. right. simpl. tauto.
  - rewrite rows_of_length. exact Hn.
  - unfold rows_of. apply Forall_forall. intros r Hr.
    apply in_map_iff in Hr. destruct Hr as [i [Hr _]]. subst r.
    rewrite length_map.
    transitivity (List.length (labels out)); [unfold labels; symmetry; apply length_map|].
    rewrite Hlab. reflexivity.
Qed.

(** X5.  Renaming twice is renaming once: no destination name is itself a source
    name, so a frame whose columns already carry destination names is not
    renamed again. *)
Theorem rename_idempotent (df : DataFrame) :
  rename column_mapping (rename column_mapping df) = rename column_mapping df.
Proof.
  assert (H : forall k, rename_label column_mapping (rename_label column_mapping k)
                        = rename_label column_mapping k).
  { intros k. destruct (assoc k column_mapping) as [d|] eqn:A.
    - assert (Hk : rename_label column_mapping k = d)
        by (unfold rename_label; rewrite A; reflexivity).
      rewrite Hk. apply assoc_In in A.
      assert (Hd : In d columns_to_insert).
      { change columns_to_insert with (map snd column_mapping).
        apply in_map_iff. exists (k, d). split; [reflexivity|exact A]. }
      clear A Hk. each_destination_column Hd; reflexivity.
    - assert (Hk : rename_label column_mapping k = k)
        by (unfold rename_label; rewrite A; reflexivity).
      rewrite Hk. exact Hk. }
  unfold rename. cbn [nrows cols]. f_equal. rewrite map_map. apply map_ext.
  intros [k s]. cbn [fst snd]. f_equal. apply H.
Qed.

(* ---------------------------------------------------------------- *)
(** *** Properties of the connection string *)

Lemma append_empty_r (s : string) : (s ++ "")%string = s.
Proof. induction s as [|a s IH]; simpl; [reflexivity|]. rewrite IH. reflexivity. Qed.

Lemma append_assoc_string (x y z : string) : ((x ++ y) ++ z)%string = (x ++ (y ++ z))%string.
Proof. induction x as [|a x IH]; simpl; [reflexivity|]. rewrite IH. reflexivity. Qed.

Lemma all_app (p : ascii -> bool) (x y : string) :
  all p (x ++ y) = all p x && all p y.
Proof.
  induction x as [|a x IH]; simpl; [reflexivity|]. rewrite IH. apply andb_assoc.
Qed.

Lemma all_impl (p q : ascii -> bool) (s : string) :
  (forall a, p a = true -> q a = true) -> all p s = true -> all q s = true.
Proof.
  intros H. induction s as [|a s IH]; simpl; [reflexivity|].
  intros Hs. apply andb_true_iff in Hs. destruct Hs as [Ha Hs].
  rewrite (H a Ha), (IH Hs). reflexivity.
Qed.

Lemma lstrip_all (p : ascii -> bool) (x y : string) :
  all p x = true -> lstrip p (x ++ y) = lstrip p y.
Proof.
  induction x as [|a x IH]; simpl; [reflexivity|].
  intros H. apply andb_true_iff in H. destruct H as [Ha Hx]. rewrite Ha. apply IH. exact Hx.
Qed.

Lemma lstrip_all_empty (p : ascii -> bool) (x : string) :
  all p x = true -> lstrip p x = EmptyString.
Proof.
  intros H. rewrite <- (append_empty_r x). rewrite lstrip_all by exact H. reflexivity.
Qed.

Lemma lstrip_keeps (p : ascii -> bool) (s : string) :
  starts_with p s = false -> lstrip p s = s.
Proof. destruct s as [|a s]; simpl; [reflexivity|]. intros H. rewrite H. reflexivity. Qed.

Lemma rstrip_all_empty (p : ascii -> bool) (x : string) :
  all p x = true -> rstrip p x = EmptyString.
Proof.
  induction x as [|a x IH]; simpl; [reflexivity|].
  intros H. apply andb_true_iff in H. destruct H as [Ha Hx].
  rewrite (IH Hx), Ha. reflexivity.
Qed.

Lemma rstrip_keeps (p : ascii -> bool) (s : string) :
  ends_with p s = false -> rstrip p s = s.
Proof.
  induction s as [|a s IH]; [reflexivity|].
  destruct s as [|b s].
  - simpl. intros H. rewrite H. reflexivity.
  - intros H. change (ends_with p (String a (String b s))) with (ends_with p (String b s)) in H.
    specialize (IH H).
    change (rstrip p (String a (String b s)))
      with (match rstrip p (String b s) with
            | EmptyString => if p a then EmptyString else String a EmptyString
            | r => String a r
            end).
    rewrite IH. reflexivity.
Qed.

Lemma rstrip_all (p : ascii -> bool) (x y : string) :
  all p y = true -> ends_with p x = false -> rstrip p (x ++ y) = x.
Proof.
  intros Hy. induction x as [|a x IH]; intros Hx.
  - simpl. apply rstrip_all_empty. exact Hy.
  - destruct x as [|b x].
    + simpl in Hx. simpl. rewrite (rstrip_all_empty p y Hy), Hx. reflexivity.
    + change (ends_with p (String a (String b x))) with (ends_with p (String b x)) in Hx.
      specialize (IH Hx).
      change (rstrip p (String a (String b x) ++ y))
        with (match rstrip p (String b x ++ y) with
              | EmptyString => if p a then EmptyString else String a EmptyString
              | r => String a r
              end).
      rewrite IH. reflexivity.
Qed.

(** Stripping removes a wrapping made of strippable characters from a
    string that neither starts nor ends with one. *)
Lemma strip_wrapped (p : ascii -> bool) (pre m post : string) :
  all p pre = true -> all p post = true ->
  starts_with p m = false -> ends_with p m = false ->
  strip p (pre ++ m ++ post) = m.
Proof.
  intros Hpre Hpost Hs He. unfold strip. rewrite lstrip_all by exact Hpre.
  destruct m as [|a m].
  - simpl. rewrite (lstrip_all_empty p post Hpost). reflexivity.
  - rewrite lstrip_keeps by (simpl; exact Hs). apply rstrip_all; assumption.
Qed.

Lemma starts_with_app (p : ascii -> bool) (x y : string) :
  all (fun a => negb (p a)) x = true -> starts_with p y = false ->
  starts_with p (x ++ y) = false.
Proof.
  destruct x as [|a x]; simpl; [intros _ H; exact H|].
  intros H _. apply andb_true_iff in H. destruct H as [H _].
  apply negb_true_iff in H. exact H.
Qed.

Lemma ends_with_app (p : ascii -> bool) (x y : string) :
  all (fun a => negb (p a)) y = true -> ends_with p x = false ->
  ends_with p (x ++ y) = false.
Proof.
  intros Hy. induction x as [|a x IH]; intros Hx.
  - simpl. clear Hx. induction y as [|b y IHy]; [reflexivity|].
    simpl in Hy. apply andb_true_iff in Hy. destruct Hy as [Hb Hy].
    apply negb_true_iff in Hb. destruct y as [|c y]; [simpl; exact Hb|].
    change (ends_with p (String b (String c y))) with (ends_with p (String c y)).
    apply IHy. exact Hy.
  - destruct x as [|b x].
    + simpl in Hx. simpl. destruct y as [|c y]; [exact Hx|].
      change (ends_with p (String c y) = false).
      apply (IH eq_refl).
    + change (ends_with p (String a (String b x))) with (ends_with p (String b x)) in Hx.
      change (ends_with p (String a (String b x) ++ y))
        with (ends_with p (String b x ++ y)).
      apply IH. exact Hx.
Qed.

Lemma starts_with_weaken (p q : ascii -> bool) (s : string) :
  (forall a, p a = true -> q a = true) ->
  starts_with q s = false -> starts_with p s = false.
Proof.
  intros H. destruct s as [|a s]; simpl; [reflexivity|].
  intros Hq. destruct (p a) eqn:E; [|reflexivity]. rewrite (H a E) in Hq. discriminate.
Qed.

Lemma ends_with_weaken (p q : ascii -> bool) (s : string) :
  (forall a, p a = true -> q a = true) ->
  ends_with q s = false -> ends_with p s = false.
Proof.
  intros H. induction s as [|a s IH]; [reflexivity|].
  destruct s as [|b s].
  - simpl. intros Hq. destruct (p a) eqn:E; [|reflexivity]. rewrite (H a E) in Hq. discriminate.
  - intros Hq. change (ends_with p (String b s) = false). apply IH. exact Hq.
Qed.

Lemma eqb_char_not (c : ascii) (p : ascii -> bool) :
  p c = false -> forall a, Ascii.eqb c a = true -> negb (p a) = true.
Proof. intros H a E. apply Ascii.eqb_eq in E. subst a. rewrite H. reflexivity. Qed.

Lemma none_starts (p : ascii -> bool) (s : string) :
  all (fun a => negb (p a)) s = true -> starts_with p s = false.
Proof.
  intros H. rewrite <- (append_empty_r s). apply starts_with_app; [exact H|reflexivity].
Qed.

Lemma none_ends (p : ascii -> bool) (s : string) :
  all (fun a => negb (p a)) s = true -> ends_with p s = false.
Proof.
  intros H. change s with (EmptyString ++ s)%string. apply ends_with_app; [exact H|reflexivity].
Qed.

Lemma ends_with_app_r (p : ascii -> bool) (x : string) (c : ascii) (y : string) :
  ends_with p (x ++ String c y) = ends_with p (String c y).
Proof.
  induction x as [|a x IH]; [reflexivity|].
  destruct x as [|b x]; [reflexivity|].
  change (ends_with p (String b x ++ String c y) = ends_with p (String c y)). exact IH.
Qed.

(** Wrapping a string that neither starts nor ends with a strippable
    character in characters that are not strippable gives such a string
    again. *)
Lemma wrapped_trimmed (p : ascii -> bool) (pre core post : string) :
  all (fun a => negb (p a)) pre = true -> all (fun a => negb (p a)) post = true ->
  starts_with p core = false -> ends_with p core = false ->
  starts_with p (pre ++ core ++ post) = false /\ ends_with p (pre ++ core ++ post) = false.
Proof.
  intros Hpre Hpost Hs He. split.
  - apply starts_with_app; [exact Hpre|].
    destruct core as [|c core]; [apply none_starts; exact Hpost|exact Hs].
  - rewrite <- append_assoc_string. apply ends_with_app; [exact Hpost|].
    destruct core as [|c core].
    + rewrite append_empty_r. apply none_ends. exact Hpre.
    + rewrite ends_with_app_r. exact He.
Qed.

(** X13.  A setting wrapped, from the outside in, in blanks, double quotes and
    single quotes is cleaned to what is inside, provided that itself neither
    starts nor ends with a blank or a quote; this holds whenever the raw
    value is not empty, also when nothing is inside: a setting made only of
    blanks and quotes becomes the empty string, not the default. *)
Theorem setting_unwraps (b1 q1 a1 core a2 q2 b2 default : string) :
  all isspace b1 = true -> all isspace b2 = true ->
  all (Ascii.eqb double_quote) q1 = true -> all (Ascii.eqb double_quote) q2 = true ->
  all (Ascii.eqb single_quote) a1 = true -> all (Ascii.eqb single_quote) a2 = true ->
  starts_with blank_or_quote core = false -> ends_with blank_or_quote core = false ->
  (b1 ++ q1 ++ a1 ++ core ++ a2 ++ q2 ++ b2)%string <> EmptyString ->
  setting (Some (b1 ++ q1 ++ a1 ++ core ++ a2 ++ q2 ++ b2)%string) default = core.
Proof.
  intros Hb1 Hb2 Hq1 Hq2 Ha1 Ha2 Hs He Hne.
  assert (Hraw : setting (Some (b1 ++ q1 ++ a1 ++ core ++ a2 ++ q2 ++ b2)%string) default =
                 strip (Ascii.eqb single_quote)
                   (strip (Ascii.eqb double_quote)
                      (strip isspace (b1 ++ q1 ++ a1 ++ core ++ a2 ++ q2 ++ b2)%string))).
  { unfold setting. destruct (b1 ++ q1 ++ a1 ++ core ++ a2 ++ q2 ++ b2)%string;
      [contradiction|reflexivity]. }
  rewrite Hraw. clear Hraw Hne.
  assert (Hsub1 : forall a, isspace a = true -> blank_or_quote a = true)
    by (intros a H; unfold blank_or_quote; rewrite H; reflexivity).
  assert (Hsub2 : forall a, Ascii.eqb double_quote a = true -> blank_or_quote a = true)
    by (intros a H; unfold blank_or_quote; rewrite H; apply orb_true_iff; left;
        apply orb_true_r).
  assert (Hsub3 : forall a, Ascii.eqb single_quote a = true -> blank_or_quote a = true)
    by (intros a H; unfold blank_or_quote; rewrite H; apply orb_true_r).
  assert (Hdq_ws : forall s, all (Ascii.eqb double_quote) s = true ->
                             all (fun a => negb (isspace a)) s = true)
    by (intros s; apply all_impl; apply eqb_char_not; reflexivity).
  assert (Hsq_ws : forall s, all (Ascii.eqb single_quote) s = true ->
                             all (fun a => negb (isspace a)) s = true)
    by (intros s; apply all_impl; apply eqb_char_not; reflexivity).
  assert (Hsq_dq : forall s, all (Ascii.eqb single_quote) s = true ->
                             all (fun a => negb (Ascii.eqb double_quote a)) s = true)
    by (intros s; apply all_impl; apply eqb_char_not; reflexivity).
  (* what is inside the double quotes, and inside the blanks *)
  destruct (wrapped_trimmed isspace a1 core a2 (Hsq_ws a1 Ha1) (Hsq_ws a2 Ha2)
              (starts_with_weaken isspace blank_or_quote core Hsub1 Hs)
              (ends_with_weaken isspace blank_or_quote core Hsub1 He)) as [Hs2w He2w].
  destruct (wrapped_trimmed (Ascii.eqb double_quote) a1 core a2 (Hsq_dq a1 Ha1) (Hsq_dq a2 Ha2)
              (starts_with_weaken (Ascii.eqb double_quote) blank_or_quote core Hsub2 Hs)
              (ends_with_weaken (Ascii.eqb double_quote) blank_or_quote core Hsub2 He))
    as [Hs2 He2].
  destruct (wrapped_trimmed isspace q1 (a1 ++ core ++ a2) q2 (Hdq_ws q1 Hq1) (Hdq_ws q2 Hq2)
              Hs2w He2w) as [Hs1 He1].
  replace (b1 ++ q1 ++ a1 ++ core ++ a2 ++ q2 ++ b2)%string
    with (b1 ++ (q1 ++ (a1 ++ core ++ a2) ++ q2) ++ b2)%string
    by (rewrite !append_assoc_string; reflexivity).
  rewrite (strip_wrapped isspace b1 (q1 ++ (a1 ++ core ++ a2) ++ q2) b2 Hb1 Hb2 Hs1 He1).
  rewrite (strip_wrapped (Ascii.eqb double_quote) q1 (a1 ++ core ++ a2) q2 Hq1 Hq2 Hs2 He2).
  apply strip_wrapped; try assumption.
  - apply (starts_with_weaken (Ascii.eqb single_quote) blank_or_quote core Hsub3 Hs).
  - apply (ends_with_weaken (Ascii.eqb single_quote) blank_or_quote core Hsub3 He).
Qed.

Lemma quote_plus_char_written (a : ascii) :
  all written_by_quote_plus (quote_plus_char a) = true.
Proof. destruct a as [[] [] [] [] [] [] [] []]; reflexivity. Qed.

Lemma quote_plus_written (s : string) : all written_by_quote_plus (quote_plus s) = true.
Proof.
  induction s as [|a s IH]; [reflexivity|].
  cbn [quote_plus]. rewrite all_app, quote_plus_char_written, IH. reflexivity.
Qed.

Lemma before_app (c : ascii) (x y : string) :
  all (fun a => negb (Ascii.eqb a c)) x = true ->
  before c (x ++ String c y) = x.
Proof.
  induction x as [|a x IH]; cbn [append before all].
  - intros _. rewrite Ascii.eqb_refl. reflexivity.
  - intros H. apply andb_true_iff in H. destruct H as [Ha Hx].
    apply negb_true_iff in Ha. rewrite Ha. rewrite (IH Hx). reflexivity.
Qed.

Lemma after_app (c : ascii) (x y : string) :
  all (fun a => negb (Ascii.eqb a c)) x = true ->
  after c (x ++ String c y) = y.
Proof.
  induction x as [|a x IH]; cbn [append after all].
  - intros _. rewrite Ascii.eqb_refl. reflexivity.
  - intros H. apply andb_true_iff in H. destruct H as [Ha Hx].
    apply negb_true_iff in Ha. rewrite Ha. apply (IH Hx).
Qed.

Lemma written_is_not (c : ascii) :
  written_by_quote_plus c = false ->
  forall a, written_by_quote_plus a = true -> negb (Ascii.eqb a c) = true.
Proof.
  intros Hc a Ha. apply negb_true_iff. apply Ascii.eqb_neq. intros E. subst a. congruence.
Qed.

(** X14.  The encoded user name and password are made of letters, digits and
    [_.-~%+] only, so whatever the credentials contain, the connection string
    is the scheme followed by a text whose part before the first [@] is the
    encoded user name, a colon and the encoded password, whose part before
    the first colon is the encoded user name, and whose part after the first
    [@] is host, port and database as cleaned. *)
Theorem connection_string_userinfo (cfg : Settings) :
  let u := quote_plus (username_of cfg) in
  let p := quote_plus (password_of cfg) in
  all written_by_quote_plus u = true /\
  all written_by_quote_plus p = true /\
  exists rest,
    connection_string cfg = ("postgresql://" ++ rest)%string /\
    before "@"%char rest = (u ++ ":" ++ p)%string /\
    before ":"%char rest = u /\
    after "@"%char rest = (host_of cfg ++ ":" ++ port_of cfg ++ "/" ++ database_of cfg)%string.
Proof.
  intros u p.
  assert (Hu : all written_by_quote_plus u = true) by apply quote_plus_written.
  assert (Hp : all written_by_quote_plus p = true) by apply quote_plus_written.
  split; [exact Hu|]. split; [exact Hp|].
  assert (Hu_at : all (fun a => negb (Ascii.eqb a "@"%char)) u = true)
    by (apply (all_impl written_by_quote_plus); [apply written_is_not; reflexivity|exact Hu]).
  assert (Hu_colon : all (fun a => negb (Ascii.eqb a ":"%char)) u = true)
    by (apply (all_impl written_by_quote_plus); [apply written_is_not; reflexivity|exact Hu]).
  assert (Hp_at : all (fun a => negb (Ascii.eqb a "@"%char)) p = true)
    by (apply (all_impl written_by_quote_plus); [apply written_is_not; reflexivity|exact Hp]).
  exists (u ++ ":" ++ p ++ "@" ++ host_of cfg ++ ":" ++ port_of cfg ++ "/" ++ database_of cfg)%string.
  split; [reflexivity|]. split; [|split].
  - replace (u ++ ":" ++ p ++ "@" ++ host_of cfg ++ ":" ++ port_of cfg ++ "/" ++ database_of cfg)%string
      with ((u ++ ":" ++ p) ++ String "@"%char
              (host_of cfg ++ ":" ++ port_of cfg ++ "/" ++ database_of cfg))%string
      by (rewrite !append_assoc_string; reflexivity).
    apply before_app. rewrite all_app, Hu_at. cbn [append all]. rewrite Hp_at. reflexivity.
  - apply (before_app ":"%char u). exact Hu_colon.
  - replace (u ++ ":" ++ p ++ "@" ++ host_of cfg ++ ":" ++ port_of cfg ++ "/" ++ database_of cfg)%string
      with ((u ++ ":" ++ p) ++ String "@"%char
              (host_of cfg ++ ":" ++ port_of cfg ++ "/" ++ database_of cfg))%string
      by (rewrite !append_assoc_string; reflexivity).
    apply after_app. rewrite all_app, Hu_at. cbn [append all]. rewrite Hp_at. reflexivity.
Qed.

End Pipeline.

(* ------------------------------------------------------------------ *)
(** ** The pipeline on the reference readers *)

Local Abbreviation ref_clean :=
  (clean Reference.to_datetime_scalar Reference.to_numeric_scalar).
Local Abbreviation ref_fetch := (fetch_kobo_data Reference.read_csv).
Local Abbreviation ref_fetched := (fetched Reference.read_csv).
Local Abbreviation ref_connect := create_database_connection.
Local Abbreviation ref_main :=
  (main Reference.to_datetime_scalar Reference.to_numeric_scalar Reference.read_csv).

Lemma quiet_calm (r : http_outcome) : calm (quiet r).
Proof. split; intros; reflexivity. Qed.

(** C1, witness: the example row in an export with an unmapped extra column
    is cleaned to the 20 destination columns; the four-column row raises. *)
Lemma clean_destination_columns_witness :
  exactly_once extra_column_row = true /\
  In "deviceid" (labels extra_column_row) /\
  (exists out, ref_clean extra_column_row = Ok out /\ labels out = columns_to_insert) /\
  missing_columns sparse_row <> [] /\
  ref_clean sparse_row = Raise (KeyError (missing_columns sparse_row)).
Proof.
  destruct (clean_destination_columns Reference.to_datetime_scalar
              Reference.to_numeric_scalar extra_column_row) as [Hgood _].
  destruct (clean_destination_columns Reference.to_datetime_scalar
              Reference.to_numeric_scalar sparse_row) as [_ Hbad].
  destruct (Hgood eq_refl) as [_ Hall].
  assert (Hmiss : missing_columns sparse_row <> []) by (vm_compute; discriminate).
  split; [reflexivity|]. split; [left; reflexivity|]. split.
  - destruct (ref_clean extra_column_row) as [out|] eqn:Hout; [|vm_compute in Hout; discriminate].
    exists out. split; [reflexivity|]. apply (Hall out eq_refl).
  - split; [exact Hmiss|]. apply Hbad. exact Hmiss.
Defined.

(** C1, counterexample: a complete export but for the column _tags is not
    cleaned to a frame with a missing-value column [tags]; [clean] raises
    KeyError. *)
Lemma missing_column_raises :
  ref_clean without_tags = Raise (KeyError ["tags"]) /\
  forall out, ref_clean without_tags <> Ok out.
Proof.
  assert (H : ref_clean without_tags = Raise (KeyError ["tags"])) by (vm_compute; reflexivity).
  split; [exact H|]. intros out Hout. rewrite H in Hout. discriminate.
Qed.

(** C2, witness: the row with the age thirty is cleaned, and every value
    of the frame returned is of the type of its column or missing. *)
Lemma clean_coerces_or_nulls_witness :
  exists out,
    ref_clean malformed_age_row = Ok out /\
    forall k, In k columns_to_insert ->
      Forall2 (coerced (kind_of k))
              (column k (rename column_mapping malformed_age_row)) (column k out).
Proof.
  destruct (ref_clean malformed_age_row) as [out|] eqn:Hc; [|vm_compute in Hc; discriminate].
  exists out. split; [reflexivity|].
  apply (@clean_coerces_or_nulls Reference.to_datetime_scalar Reference.to_numeric_scalar
           malformed_age_row out eq_refl Hc).
Defined.

(** C2, counterexample: the age 3.5 is converted to the number 3.5, which is
    neither an integer nor missing, and the identifier 3.5 makes the
    conversion raise TypeError. *)
Lemma fractional_values_break_coercion :
  (exists out,
     ref_clean fractional_age_row = Ok out /\
     nth_error (column "age" (rename column_mapping fractional_age_row)) 0 = Some (Str "3.5") /\
     nth_error (column "age" out) 0 = Some (Num (Frac (7 # 2))) /\
     Num (Frac (7 # 2)) <> Null /\
     (forall z, Num (Frac (7 # 2)) <> Num (Int z))) /\
  nth_error (column "submission_id" (rename column_mapping fractional_id_row)) 0
  = Some (Str "3.5") /\
  ref_clean fractional_id_row = Raise TypeError.
Proof.
  split.
  - eexists. split; [vm_compute; reflexivity|].
    split; [reflexivity|]. split; [reflexivity|].
    split; [discriminate|]. intros z; discriminate.
  - split; [reflexivity|]. vm_compute. reflexivity.
Qed.

(** C6, witness: the reference readers read the three literals as the
    theorem expects. *)
Lemma clean_example_row_witness :
  ref_clean example_row = Ok example_cleaned /\
  column "age" example_cleaned = [Num (Int 34)] /\
  column "gender" example_cleaned = [Str "Female"] /\
  column "submission_id" example_cleaned = [Num (Int 991)] /\
  column "start_time" example_cleaned = [Stamp instant_2024_01_03] /\
  utc_offset instant_2024_01_03 = Some 0 /\
  forall k, In k columns_to_insert ->
    mem k ["age"; "gender"; "submission_id"; "start_time"] = false ->
    column k example_cleaned = [Null].
Proof.
  apply (clean_example_row Reference.to_datetime_scalar Reference.to_numeric_scalar);
    reflexivity.
Defined.

(** C6, counterexample: the example row with its four columns and no
    other is not cleaned to a record; [clean] raises KeyError
    for the sixteen destination columns the source lacks. *)
Lemma sparse_row_raises :
  labels sparse_row = ["Age"; "Gender"; "_id"; "start"] /\
  ref_clean sparse_row =
  Raise (KeyError ["end_time"; "date_of_reporting"; "store_location";
                   "product_pricing_satisfaction"; "customer_service_satisfaction";
                   "overall_satisfaction"; "recommendations"; "uuid";
                   "submission_time"; "validation_status"; "notes"; "status";
                   "submitted_by"; "version"; "tags"; "index_value"]).
Proof. split; vm_compute; reflexivity. Qed.



(** C3, witness: two runs on an export of two rows, over a store that held
    one older row. *)
Lemma rerun_replaces_rows_witness :
  let env := quiet (Response 200 two_rows) in
  let w1 := snd (ref_main env (world_of old_store)) in
  let w2 := snd (ref_main env w1) in
  row_count (world_of old_store) = Some 1%nat /\
  option_map nrows (ref_fetched env) = Some 2%nat /\
  row_count w1 = Some 2%nat /\
  row_count w2 = Some 2%nat.
Proof.
  intros env w1 w2.
  destruct (ref_fetched env) as [df|] eqn:Hf; [|vm_compute in Hf; discriminate].
  destruct (ref_clean df) as [out|] eqn:Hc;
    [|vm_compute in Hf; injection Hf as Hf; subst df; vm_compute in Hc; discriminate].
  assert (He : empty df = false)
    by (vm_compute in Hf; injection Hf as Hf; subst df; reflexivity).
  assert (Hn : nrows df = 2%nat)
    by (vm_compute in Hf; injection Hf as Hf; subst df; reflexivity).
  assert (Hx : exactly_once df = true)
    by (vm_compute in Hf; injection Hf as Hf; subst df; reflexivity).
  destruct (@rerun_replaces_rows Reference.to_datetime_scalar Reference.to_numeric_scalar
              Reference.read_csv env env (world_of old_store) df out
              (quiet_calm _) (quiet_calm _) eq_refl Hf He Hx Hc) as [_ [H1 [_ [H2 _]]]].
  rewrite Hn in H1, H2.
  split; [reflexivity|]. split; [cbn [option_map]; rewrite Hn; reflexivity|].
  split; [exact H1|exact H2].
Defined.

(** C3, counterexample: the remote source has no row in either run; the
    table is neither dropped nor recreated, the older row survives both
    runs, and the row count stays 1 while the source has 0 rows. *)
Lemma empty_source_keeps_old_rows :
  let env := quiet (Response 200 header_only) in
  let w1 := snd (ref_main env (world_of old_store)) in
  let w2 := snd (ref_main env w1) in
  option_map nrows (ref_fetched env) = Some 0%nat /\
  fst (ref_main env (world_of old_store)) = Ok tt /\
  fst (ref_main env w1) = Ok tt /\
  row_count w1 = Some 1%nat /\
  row_count w2 = Some 1%nat /\
  table (db w2) = table old_store /\
  issued w2 = [].
Proof. vm_compute. repeat split; reflexivity. Qed.

(** C4, witness: an export with no row, over a store that holds a row. *)
Lemma no_data_no_mutation_witness :
  exists S L,
    ref_main (quiet (Response 200 header_only)) (world_of old_store) =
    (Ok tt, {| db := old_store; issued := S; stdout := L |}) /\
    forallb (fun s => negb (mutation s)) S = true.
Proof.
  destruct (@no_data_no_mutation Reference.to_datetime_scalar Reference.to_numeric_scalar
              Reference.read_csv (quiet (Response 200 header_only)) (world_of old_store))
    as [S [L [E HS]]].
  - right. left. eexists. split; vm_compute; reflexivity.
  - exists S, L. split; [exact E|exact HS].
Defined.

(** C5, counterexample: the service answers 200 with the header line and no
    row; [fetch_kobo_data] returns a frame of zero rows, not None, and
    prints no error. *)
Lemma empty_export_is_returned :
  exists df L,
    ref_fetch (quiet (Response 200 header_only)) (world_of no_store) =
    (Ok (Some df), say (world_of no_store) L) /\
    nrows df = 0%nat /\
    labels df = source_columns /\
    (forall e, ~ In (ErrorFetching e) L).
Proof.
  eexists. eexists. split; [vm_compute; reflexivity|].
  split; [reflexivity|]. split; [reflexivity|].
  intros e H. simpl in H. repeat (destruct H as [H|H]; [discriminate|]). exact H.
Qed.

(** C8, witness: provisioning over a store that holds a row. *)
Lemma create_schema_and_table_recreates_witness :
  create_schema_and_table (quiet Unreachable) (world_of old_store) =
  (Ok tt,
   {| db := {| has_schema := true; table := Some [] |};
      issued := [CreateSchemaIfNotExists; DropTableIfExists; CreateTable customer_feedback];
      stdout := [SchemaVerified; TableCreated] |}) /\
  List.length customer_feedback = 22%nat.
Proof.
  destruct (@create_schema_and_table_recreates (quiet Unreachable) (world_of old_store) eq_refl)
    as [H [Hlen _]].
  split; [exact H|exact Hlen].
Defined.

(** C8, counterexample: the table has 22 columns, five of them INTEGER and
    nine of them text or string besides [uuid], and a second unzoned
    timestamp; not 21, four and eight. *)
Lemma table_has_22_columns :
  List.length customer_feedback <> 21%nat /\
  count_columns (has_type INTEGER) <> 4%nat /\
  count_columns (fun c => is_text c && negb (String.eqb (cname c) "uuid")) <> 8%nat /\
  List.length customer_feedback = 22%nat /\
  count_columns (has_type INTEGER) = 5%nat /\
  count_columns (fun c => is_text c && negb (String.eqb (cname c) "uuid")) = 9%nat /\
  count_columns (has_type TIMESTAMP) = 2%nat.
Proof. vm_compute. repeat split; try reflexivity; discriminate. Qed.

(** C9, witness: the server refuses the INSERT. *)
Lemma failure_aborts_before_verification_witness :
  exists e d S L,
    ref_main (refusing_insert (Response 200 two_rows)) (world_of old_store) =
    (Raise e, {| db := d; issued := S; stdout := L |}) /\
    forallb (fun s => negb (verification s)) S = true /\
    (In (ErrorCreating e) L \/ In (ErrorInserting e) L).
Proof.
  destruct (ref_fetched (refusing_insert (Response 200 two_rows))) as [df|] eqn:Hf;
    [|vm_compute in Hf; discriminate].
  assert (He : empty df = false)
    by (vm_compute in Hf; injection Hf as Hf; subst df; reflexivity).
  assert (Hl : loading_fails Reference.to_datetime_scalar Reference.to_numeric_scalar
                 (refusing_insert (Response 200 two_rows)) df = true)
    by (vm_compute in Hf; injection Hf as Hf; subst df; vm_compute; reflexivity).
  exact (@failure_aborts_before_verification Reference.to_datetime_scalar
           Reference.to_numeric_scalar Reference.read_csv
           (refusing_insert (Response 200 two_rows)) (world_of old_store) df
           Hf He eq_refl (or_intror Hl)).
Defined.

(** C10, witness: the service and the database are both out of reach. *)
Lemma fetch_and_connect_never_raise_witness :
  ref_fetch (offline Unreachable) (world_of no_store) =
  (Ok None, say (world_of no_store) [ErrorFetching ConnectionError; Traceback ConnectionError]) /\
  (exists S, ref_connect (offline Unreachable) (world_of no_store) =
             (Ok None,
              {| db := no_store; issued := S;
                 stdout := [AttemptingConnection; ErrorConnecting OperationalError;
                            TroubleshootingTips] |})) /\
  fst (ref_main (offline Unreachable) (world_of no_store)) = Ok tt.
Proof.
  destruct (@fetch_and_connect_never_raise Reference.to_datetime_scalar
              Reference.to_numeric_scalar Reference.read_csv
              (offline Unreachable) (world_of no_store))
    as [_ [Hnet [_ [_ [_ [Hconn Hmain]]]]]].
  split; [exact (Hnet eq_refl)|]. split.
  - destruct (Hconn eq_refl) as [S E]. exists S. exact E.
  - apply Hmain. left. reflexivity.
Defined.

(** C10, counterexample: a status that is not 2xx and not an error for
    [raise_for_status] either.  The answer 300 with one row of text is
    parsed like any other: a frame is returned and no error is printed. *)
Lemma redirect_status_is_parsed :
  exists df L,
    ref_fetch (quiet multiple_choices) (world_of no_store) =
    (Ok (Some df), say (world_of no_store) L) /\
    nrows df = 1%nat /\
    (forall e, ~ In (ErrorFetching e) L).
Proof.
  eexists. eexists. split; [vm_compute; reflexivity|].
  split; [reflexivity|].
  intros e H. simpl in H. repeat (destruct H as [H|H]; [discriminate|]). exact H.
Qed.

(* ------------------------------------------------------------------ *)
(** ** Further properties on the reference readers *)

(** X1, witness.  An export with the 20 source columns and one more. *)
Lemma complete_export_exactly_once_witness :
  exactly_once extra_column_row = true /\
  missing_columns extra_column_row = [] /\
  exists sel, getitem_list columns_to_insert (rename column_mapping extra_column_row) = Ok sel /\
              labels sel = columns_to_insert.
Proof.
  apply (@complete_export_exactly_once extra_column_row).
  - vm_compute.
    repeat (constructor;
            [simpl; intros H; repeat (destruct H as [H|H]; [discriminate H|]); exact H|]).
    constructor.
  - intros k Hk Hd. vm_compute in Hk.
    repeat (destruct Hk as [Hk|Hk];
            [subst k; vm_compute in Hd;
             repeat (destruct Hd as [Hd|Hd]; [discriminate Hd|]); exact Hd|]).
    exact Hk.
  - intros s Hs. vm_compute in Hs. vm_compute.
    repeat (destruct Hs as [Hs|Hs]; [subst s; tauto|]). contradiction.
Defined.

(** X2, witness.  A repeated text column: the cleaned frame has 21 columns. *)
Lemma clean_success_columns_witness :
  exists out,
    ref_clean doubled_gender_row = Ok out /\
    carried "gender" doubled_gender_row = 2%nat /\
    List.length (cols out) = 21%nat /\
    exactly_once doubled_gender_row = false /\
    labels out = flat_map (fun k => repeat k (carried k doubled_gender_row)) columns_to_insert.
Proof.
  destruct (ref_clean doubled_gender_row) as [out|] eqn:Hc; [|vm_compute in Hc; discriminate].
  destruct (@clean_success_columns Reference.to_datetime_scalar Reference.to_numeric_scalar
              doubled_gender_row out Hc) as [Hlab _].
  exists out. split; [reflexivity|]. split; [reflexivity|].
  split; [vm_compute in Hc; injection Hc as Hc; subst out; reflexivity|].
  split; [reflexivity|exact Hlab].
Defined.

(** X3, witness.  A repeated numeric column: the cleaning raises. *)
Lemma clean_rejects_repeated_typed_column_witness :
  carried "age" doubled_age_row = 2%nat /\
  exists e, ref_clean doubled_age_row = Raise e /\ conversion_error e.
Proof.
  split; [reflexivity|].
  apply (@clean_rejects_repeated_typed_column Reference.to_datetime_scalar
           Reference.to_numeric_scalar doubled_age_row "age").
  - reflexivity.
  - simpl. tauto.
  - discriminate.
  - vm_compute. discriminate.
Defined.

(** X4, witness.  The exceptions of the cleaning on the four-column row. *)
Lemma clean_raises_only_witness :
  ref_clean sparse_row = Raise (KeyError (missing_columns sparse_row)) /\
  missing_columns sparse_row <> [].
Proof.
  destruct (@clean_raises_only Reference.to_datetime_scalar Reference.to_numeric_scalar
              sparse_row) as [Hkey _].
  assert (Hne : missing_columns sparse_row <> []) by (vm_compute; discriminate).
  split; [|exact Hne]. apply Hkey. split; [reflexivity|exact Hne].
Defined.

(** X6, witness.  A run on an export of two rows in which nothing fails,
    over a store that held one older row. *)
Lemma fault_free_run_report_witness :
  table old_store = Some [[Str "kept"]] /\
  exists L,
    fst (ref_main (quiet (Response 200 two_rows)) (world_of old_store)) = Ok tt /\
    stdout (snd (ref_main (quiet (Response 200 two_rows)) (world_of old_store)))
    = stdout (world_of old_store) ++ L ++ [Completed] /\
    In (Inserted 2) L /\
    In (TotalRecords 2) L.
Proof.
  split; [reflexivity|].
  destruct (ref_fetched (quiet (Response 200 two_rows))) as [df|] eqn:Hf;
    [|vm_compute in Hf; discriminate].
  destruct (ref_clean df) as [out|] eqn:Hc;
    [|vm_compute in Hf; injection Hf as Hf; subst df; vm_compute in Hc; discriminate].
  assert (He : empty df = false)
    by (vm_compute in Hf; injection Hf as Hf; subst df; reflexivity).
  assert (Hx : exactly_once df = true)
    by (vm_compute in Hf; injection Hf as Hf; subst df; reflexivity).
  assert (Hn : nrows df = 2%nat)
    by (vm_compute in Hf; injection Hf as Hf; subst df; reflexivity).
  destruct (@fault_free_run_report Reference.to_datetime_scalar Reference.to_numeric_scalar
              Reference.read_csv (quiet (Response 200 two_rows)) (world_of old_store) df out
              (quiet_calm _) Hf He Hx Hc) as [L [H1 [H2 [H3 H4]]]].
  rewrite Hn in H3, H4.
  exists L. split; [exact H1|]. split; [exact H2|]. split; [exact H3|exact H4].
Defined.

(** X8, witness.  The server refuses the INSERT: the older row is gone and the table is
    empty. *)
Lemma failed_load_leaves_empty_table_witness :
  table old_store = Some [[Str "kept"]] /\
  exists e,
    fst (ref_main (refusing_insert (Response 200 two_rows)) (world_of old_store)) = Raise e /\
    db (snd (ref_main (refusing_insert (Response 200 two_rows)) (world_of old_store)))
    = {| has_schema := true; table := Some [] |}.
Proof.
  split; [reflexivity|].
  destruct (ref_fetched (refusing_insert (Response 200 two_rows))) as [df|] eqn:Hf;
    [|vm_compute in Hf; discriminate].
  assert (He : empty df = false)
    by (vm_compute in Hf; injection Hf as Hf; subst df; reflexivity).
  assert (Hl : loading_fails Reference.to_datetime_scalar Reference.to_numeric_scalar
                 (refusing_insert (Response 200 two_rows)) df = true)
    by (vm_compute in Hf; injection Hf as Hf; subst df; vm_compute; reflexivity).
  exact (@failed_load_leaves_empty_table Reference.to_datetime_scalar
           Reference.to_numeric_scalar Reference.read_csv
           (refusing_insert (Response 200 two_rows)) (world_of old_store) df
           Hf He eq_refl eq_refl Hl).
Defined.

(** X9, witness.  The server refuses the CREATE TABLE after accepting the DROP: no table
    is left. *)
Lemma failed_provisioning_store_witness :
  exists e,
    fst (create_schema_and_table (refusing_create Unreachable) (world_of old_store)) = Raise e /\
    table (db (snd (create_schema_and_table (refusing_create Unreachable) (world_of old_store))))
    = None.
Proof.
  exact (@failed_provisioning_store (refusing_create Unreachable) (world_of old_store) eq_refl).
Defined.

(** X10, witness.  The server refuses the count query: the two rows stay loaded. *)
Lemma failed_verification_keeps_rows_witness :
  exists e,
    fst (ref_main (refusing_count (Response 200 two_rows)) (world_of old_store)) = Raise e /\
    row_count (snd (ref_main (refusing_count (Response 200 two_rows)) (world_of old_store)))
    = Some 2%nat.
Proof.
  destruct (ref_fetched (refusing_count (Response 200 two_rows))) as [df|] eqn:Hf;
    [|vm_compute in Hf; discriminate].
  destruct (ref_clean df) as [out|] eqn:Hc;
    [|vm_compute in Hf; injection Hf as Hf; subst df; vm_compute in Hc; discriminate].
  assert (He : empty df = false)
    by (vm_compute in Hf; injection Hf as Hf; subst df; reflexivity).
  assert (Hn : nrows df = 2%nat)
    by (vm_compute in Hf; injection Hf as Hf; subst df; reflexivity).
  assert (Hl : loading_fails Reference.to_datetime_scalar Reference.to_numeric_scalar
                 (refusing_count (Response 200 two_rows)) df = false)
    by (vm_compute in Hf; injection Hf as Hf; subst df; vm_compute; reflexivity).
  destruct (@failed_verification_keeps_rows Reference.to_datetime_scalar
              Reference.to_numeric_scalar Reference.read_csv
              (refusing_count (Response 200 two_rows)) (world_of old_store) df out
              Hf He Hc eq_refl eq_refl Hl eq_refl) as [e [L [Hr [Hdb _]]]].
  exists e. split; [exact Hr|]. unfold row_count. rewrite Hdb. cbn [table option_map].
  f_equal. rewrite <- Hn. transitivity (nrows out).
  - unfold rows_of. rewrite length_map. apply length_seq.
  - vm_compute in Hf. injection Hf as Hf. subst df. vm_compute in Hc.
    injection Hc as Hc. subst out. reflexivity.
Defined.

(** X13, witness.  A password in double quotes with a blank before and after. *)
Lemma setting_unwraps_witness :
  setting (Some (" " ++ String double_quote ("p@ss w/rd" ++ String double_quote " "))%string)
          "postgres"
  = "p@ss w/rd".
Proof.
  exact (@setting_unwraps " " (String double_quote "") "" "p@ss w/rd" ""
           (String double_quote "") " " "postgres"
           eq_refl eq_refl eq_refl eq_refl eq_refl eq_refl eq_refl eq_refl
           ltac:(discriminate)).
Defined.

(** X7, witness.  A fault-free run on a complete export of two rows. *)
Lemma insert_matches_table_witness :
  exists df out,
    ref_fetched (quiet (Response 200 two_rows)) = Some df /\
    ref_clean df = Ok out /\
    In (InsertRows columns_to_insert (rows_of out))
       (issued (snd (ref_main (quiet (Response 200 two_rows)) (world_of no_store)))) /\
    List.length (rows_of out) = 2%nat.
Proof.
  destruct (ref_fetched (quiet (Response 200 two_rows))) as [df|] eqn:Hf;
    [|vm_compute in Hf; discriminate].
  destruct (ref_clean df) as [out|] eqn:Hc;
    [|vm_compute in Hf; injection Hf as Hf; subst df; vm_compute in Hc; discriminate].
  assert (He : empty df = false)
    by (vm_compute in Hf; injection Hf as Hf; subst df; reflexivity).
  assert (Hn : nrows df = 2%nat)
    by (vm_compute in Hf; injection Hf as Hf; subst df; reflexivity).
  assert (Hx : exactly_once df = true)
    by (vm_compute in Hf; injection Hf as Hf; subst df; reflexivity).
  destruct (@insert_matches_table Reference.to_datetime_scalar Reference.to_numeric_scalar
              Reference.read_csv (quiet (Response 200 two_rows)) (world_of no_store) df out
              (quiet_calm _) Hf He Hx Hc) as [Hins [_ [Hlen _]]].
  exists df, out. split; [reflexivity|]. split; [exact Hc|].
  split; [exact Hins|]. rewrite Hlen. exact Hn.
Defined.
